(** * geosar: twilight-phase classification of GPX track points

    A shallow embedding of [src/geosar/main.py] (class [GPX]) and
    [src/geosar/settings.py], with the properties of the phase timeline
    and of the phase classifier proved over it.

    Conventions of the embedding.
    - An instant (a Python [datetime], a pandas [Timestamp]) is the number
      of microseconds since the epoch on the UTC scale, a [Z].  A missing
      timestamp ([None], [NaT]) is [None].
    - A calendar date ([datetime.date]) is the number of days since the
      epoch, a [Z]; a [timedelta] between dates is a number of days.
    - The timestamps of the file are UTC stamps, as the GPX schema has
      them: the date a timestamp shows is its UTC date.
    - Latitudes and longitudes are the rationals denoted by the floats of
      the track file; the arithmetic of [np.median] is exact on them.
    - A [DataFrame] is the list of its rows in positional order.
    - A raised exception is the name of its class.
    - The ephemeris ([ephem]), the parser's time bounds ([gpxpy]) and the
      time-zone database are external: they are parameters. *)

From Stdlib Require Import List ZArith QArith Bool Lia Lqa.
From Stdlib Require Import Strings.String Strings.Ascii.
From Stdlib Require Import Sorting.Permutation Sorting.Sorted.
Import ListNotations.

Local Open Scope string_scope.
Local Open Scope list_scope.
Local Open Scope Z_scope.

(** ** settings.py *)

Module s.
Definition TIMEZONE := "America/New_York".

Definition ASTRO_HORIZ := "-18".
Definition NAUTI_HORIZ := "-12".
Definition CIVIL_HORIZ := "-6".
Definition SHINE_HORIZ := "0".

Definition NIGHT := "Night".
Definition ASTRO := "Astrological Twilight".
Definition NAUTI := "Nautical Twilight".
Definition CIVIL := "Civil Twilight".
Definition SHINE := "Daytime".
Definition PLANS := "Planning".
End s.

(** ** Time *)

Definition us_per_second : Z := 1000000.
Definition us_per_day : Z := 86400 * us_per_second.

(** [datetime.time(h, m)] as microseconds since midnight. *)
Definition time_of (h m : Z) : Z := (h * 3600 + m * 60) * us_per_second.

(** [datetime.datetime.combine(d, t)]: naive fields, no zone conversion. *)
Definition datetime_combine (d t : Z) : Z := d * us_per_day + t.

(** [.date()] and [.time()] of an instant. *)
Definition date_of (t : Z) : Z := t / us_per_day.
Definition time_of_day (t : Z) : Z := t mod us_per_day.

(** [day = datetime.timedelta(days=1)] *)
Definition day : Z := 1.

(** ** Exceptions, and the state of [self.observer] *)

Definition exn := string.

Record Observer := mkObserver {
  lat : Q;
  lon : Q;
  date : Z;
  horizon : string
}.

(** Computations that read and write [self.observer] and may raise. *)
Definition M (A : Type) : Type := Observer -> (exn + A) * Observer.

Definition ret {A} (a : A) : M A := fun obs => (inr a, obs).
Definition raise {A} (e : exn) : M A := fun obs => (inl e, obs).
Definition bind {A B} (m : M A) (k : A -> M B) : M B :=
  fun obs =>
    match m obs with
    | (inr a, obs') => k a obs'
    | (inl e, obs') => (inl e, obs')
    end.

Notation "x <- m ;; k" := (bind m (fun x => k))
  (at level 61, m at next level, right associativity).
Notation "m ;;; k" := (bind m (fun _ => k))
  (at level 61, right associativity).

(** [self.observer.date = v] and [self.observer.horizon = v] *)
Definition set_date (v : Z) : M unit :=
  fun obs => (inr tt, mkObserver (lat obs) (lon obs) v (horizon obs)).
Definition set_horizon (v : string) : M unit :=
  fun obs => (inr tt, mkObserver (lat obs) (lon obs) (date obs) v).

(** A [for] loop that threads the loop-carried value [acc]. *)
Fixpoint for_each {A B} (xs : list A) (body : B -> A -> M B) (acc : B) : M B :=
  match xs with
  | [] => ret acc
  | x :: xs' => acc' <- body acc x ;; for_each xs' body acc'
  end.

(** ** Rows of the tables *)

(** The dict returned by [_sun_event]. *)
Module Sun.
Record t := mk { phase : string; rise : Z; set : Z }.
End Sun.

(** A row of the [sun_events] frame. *)
Module Ev.
Record t := mk { phase : string; direction : string; datetime : Z }.
End Ev.

(** ** Sorting ([DataFrame.sort_values]) *)

Section Sort.
Context {A : Type} (ltb : A -> A -> bool).

Fixpoint insert_by (x : A) (l : list A) : list A :=
  match l with
  | [] => [x]
  | y :: l' => if ltb y x then y :: insert_by x l' else x :: l
  end.

(** Ascending.  The order pandas gives to rows with equal keys is not
    specified; here they keep their original order, and the properties
    proved below use only that the result is an ascending rearrangement. *)
Definition sort_by (l : list A) : list A :=
  fold_right insert_by [] l.
End Sort.

(** [sort_values('datetime')] *)
Definition sort_values (times : list Ev.t) : list Ev.t :=
  sort_by (fun a b => Ev.datetime a <? Ev.datetime b) times.

(** ** The steps of [sun_events] *)

(** [pandas.melt(id_vars=['phase'], var_name='direction',
    value_name='datetime')]: the rows of column [rise], then the rows of
    column [set]; a frame without the column [phase] is refused. *)
Definition melt (times : list Sun.t) : exn + list Ev.t :=
  match times with
  | [] => inl "KeyError"
  | _ =>
      inr (map (fun r => Ev.mk (Sun.phase r) "rise" (Sun.rise r)) times ++
           map (fun r => Ev.mk (Sun.phase r) "set" (Sun.set r)) times)
  end.

(** [times.loc[(times.direction == 'set') & (times.phase == _from), 'phase'] = _to] *)
Definition shift_setting (times : list Ev.t) (ft : string * string) : list Ev.t :=
  let '(_from, _to) := ft in
  map (fun e =>
         if ((Ev.direction e =? "set") && (Ev.phase e =? _from))%string
         then Ev.mk _to (Ev.direction e) (Ev.datetime e)
         else e) times.

Definition phases : list (string * string) :=
  [ (s.ASTRO, s.ASTRO_HORIZ);
    (s.NAUTI, s.NAUTI_HORIZ);
    (s.CIVIL, s.CIVIL_HORIZ);
    (s.SHINE, s.SHINE_HORIZ) ].

Definition setting_shifts : list (string * string) :=
  [ (s.ASTRO, s.NIGHT);
    (s.NAUTI, s.ASTRO);
    (s.CIVIL, s.NAUTI);
    (s.SHINE, s.CIVIL) ].

(** [range(n)] *)
Definition range (n : Z) : list Z := map Z.of_nat (seq 0 (Z.to_nat n)).

Section Ephemeris.
(** [observer.previous_rising(sun).datetime()] and
    [observer.next_setting(sun).datetime()]: the ephemeris reads the
    observer's position, clock and horizon and answers on the UTC scale.
    It is taken where it answers: under polar day or night it raises
    instead, and the sweep with it; such sweeps are outside this model. *)
Variable previous_rising : Observer -> Z.
Variable next_setting : Observer -> Z.

Definition _sun_event (horizon phase : string) : M Sun.t :=
  set_horizon horizon ;;;
  fun obs => (inr (Sun.mk phase (previous_rising obs) (next_setting obs)), obs).

(** Lines 161-174 of [sun_events]: the loop that fills [times]. *)
Definition sun_events_loop (start_date end_date : Z) : M (list Sun.t) :=
  for_each (range (Z.quot (end_date - start_date) day + 1))
    (fun times d =>
       set_date (datetime_combine (start_date + day * d) (time_of 12 0)) ;;;
       for_each phases
         (fun times '(phase, horizon) =>
            e <- _sun_event horizon phase ;;
            ret (times ++ [e]))
         times)
    [].

(** The property [sun_events]. *)
Definition sun_events (start_date end_date : Z) : M (list Ev.t) :=
  times <- sun_events_loop start_date end_date ;;
  match melt times with
  | inl e => raise e
  | inr times =>
      let times := sort_values times in
      let times := fold_left shift_setting setting_shifts times in
      ret times
  end.
End Ephemeris.

(** ** The parsed track file ([gpxpy]) *)

Record GPXTrackPoint := mkPoint {
  latitude : Q;
  longitude : Q;
  time : option Z
}.

Record GPXTrackSegment := mkSegment { points : list GPXTrackPoint }.

Record GPXTrack := mkTrack {
  name : option string;
  description : option string;
  segments : list GPXTrackSegment
}.

Record GPXData := mkData { tracks : list GPXTrack }.

Record TimeBounds := mkBounds {
  start_time : option Z;
  end_time : option Z
}.

(** [walk()]: every point of every segment of every track, in file order. *)
Definition walk (g : GPXData) : list GPXTrackPoint :=
  flat_map (fun track => flat_map points (segments track)) (tracks g).

(** ** [np.median(pts, axis=0)] *)

Definition Qltb (x y : Q) : bool := negb (Qle_bool y x).

(** The median of one column: the middle element of the sorted column, or
    the mean of the two middle elements when the count is even. *)
Definition column_median (col : list Q) : Q :=
  let part := sort_by Qltb col in
  let sz := List.length col in
  if Nat.even sz
  then ((nth (sz / 2 - 1) part 0 + nth (sz / 2) part 0) / 2)%Q
  else nth ((sz - 1) / 2) part 0%Q.

(** What [np.median] returns on the array built from a list of pairs: the
    empty list is a one-dimensional empty array, whose median is the scalar
    [nan]; otherwise the array has two columns and the result has two
    entries. *)
Inductive median_result :=
| NanScalar
| Columns (m0 m1 : Q).

Definition np_median_axis0 (pts : list (Q * Q)) : median_result :=
  match pts with
  | [] => NanScalar
  | _ => Columns (column_median (map fst pts)) (column_median (map snd pts))
  end.

(** ** The frames *)

(** A row of [_parse_track]. *)
Module Pt.
Record t := mk {
  latitude : Q;
  longitude : Q;
  utc : option Z;
  id : nat;
  name : option string;
  description : option string
}.
End Pt.

(** A row after the time columns and [phase] are added. *)
Module Rec.
Record t := mk {
  pt : Pt.t;
  utc_date : option Z;
  utc_time : option Z;
  local : option Z;
  date : option Z;
  time : option Z;
  phase : string
}.
Definition utc (r : t) : option Z := Pt.utc (pt r).
Definition id (r : t) : nat := Pt.id (pt r).
Definition set_phase (r : t) (v : string) : t :=
  mk (pt r) (utc_date r) (utc_time r) (local r) (date r) (time r) v.
End Rec.

(** A row of the frame returned by [_expand_time_info]. *)
Module Row.
Record t := mk {
  rec : Rec.t;
  start_phase : string;
  end_phase : string
}.
Definition utc (r : t) : option Z := Rec.utc (rec r).
Definition id (r : t) : nat := Rec.id (rec r).
Definition phase (r : t) : string := Rec.phase (rec r).
End Row.

Definition isnull (v : option Z) : bool :=
  match v with None => true | Some _ => false end.

(** [df.utc >= event.datetime]: false on a missing timestamp. *)
Definition ge_datetime (v : option Z) (d : Z) : bool :=
  match v with None => false | Some t => d <=? t end.

(** [df.loc[cond, 'phase'] = v] *)
Definition loc_set_phase (cond : Rec.t -> bool) (v : string)
    (df : list Rec.t) : list Rec.t :=
  map (fun r => if cond r then Rec.set_phase r v else r) df.

(** Lines 129-132: the column [phase]. *)
Definition assign_phase (events : list Ev.t) (df : list Rec.t) : list Rec.t :=
  let df := map (fun r => Rec.set_phase r s.PLANS) df in
  let df := loc_set_phase (fun r => negb (isnull (Rec.utc r))) s.NIGHT df in
  fold_left
    (fun df event =>
       loc_set_phase (fun r => ge_datetime (Rec.utc r) (Ev.datetime event))
         (Ev.phase event) df)
    events df.

(** [df[['id', 'phase']].groupby('id')]: the keys in ascending order, each
    with the phases of its rows in frame order. *)
Definition groupby_id (df : list Rec.t) : list (nat * list string) :=
  map (fun k => (k, map Rec.phase (filter (fun r => Nat.eqb (Rec.id r) k) df)))
      (sort_by Nat.ltb (nodup Nat.eq_dec (map Rec.id df))).

(** [.first()] and [.last()] of a group (no phase is null). *)
Definition first (g : list string) : list string :=
  match g with [] => [] | p :: _ => [p] end.
Definition last (g : list string) : list string := first (rev g).

(** [.groupby('id').first().reset_index()], and the same with [last]. *)
Definition agg (f : list string -> list string) (df : list Rec.t)
    : list (nat * string) :=
  flat_map (fun '(k, g) => map (fun p => (k, p)) (f g)) (groupby_id df).

(** [left.merge(right, on='id')]: inner join, in the order of the left rows. *)
Definition merge {L R} (lid : L -> nat) (left : list L)
    (right : list (nat * R)) : list (L * R) :=
  flat_map
    (fun l => map (fun kr => (l, snd kr))
                  (filter (fun kr => Nat.eqb (fst kr) (lid l)) right))
    left.

(** The object [self]. *)
Record GPX := mkGPX {
  _gpx_data : GPXData;
  observer : Observer;
  start_date : Z;
  end_date : Z
}.

(** [enumerate(xs)] *)
Definition enumerate {A} (xs : list A) : list (nat * A) :=
  combine (seq 0 (List.length xs)) xs.

(** [_parse_track(track, index)] *)
Definition _parse_track (track : GPXTrack) (index : nat) : list Pt.t :=
  map (fun point =>
         Pt.mk (latitude point) (longitude point) (time point)
               index (name track) (description track))
      (flat_map points (segments track)).

(** The reading of the clock of [zone] at the instant [t], given the zone's
    offset from UTC ([tz_convert(zone)] followed by a read of the fields). *)
Definition wall_clock (utc_offset : string -> Z -> Z) (zone : string) (t : Z) : Z :=
  t + utc_offset zone t.

Section Methods.
(** The ephemeris. *)
Variable previous_rising : Observer -> Z.
Variable next_setting : Observer -> Z.
(** [gpxpy]'s [get_time_bounds()]. *)
Variable get_time_bounds : GPXData -> TimeBounds.
(** The time-zone database: the offset from UTC, in microseconds, that
    the named zone has at a given instant. *)
Variable utc_offset : string -> Z -> Z.

(** [_observer_init].  Unpacking a scalar [nan] into two names raises
    [TypeError]; the ephemeris refuses [None] as a date.  The position is
    handed over as decimal strings of degrees: [lat] and [lon] are the
    numbers they denote.  A new observer has horizon 0. *)
Definition _observer_init (g : GPXData) : exn + Observer :=
  let pts := map (fun p => (latitude p, longitude p)) (walk g) in
  match np_median_axis0 pts with
  | NanScalar => inl "TypeError"
  | Columns mid_lat mid_lon =>
      match start_time (get_time_bounds g) with
      | None => inl "ValueError"
      | Some t => inr (mkObserver mid_lat mid_lon t "0")
      end
  end.

(** [__init__], after the file is parsed.  [.date()] reads the date the
    bound shows, its UTC date for the UTC stamps of the file. *)
Definition __init__ (g : GPXData) : exn + GPX :=
  match _observer_init g with
  | inl e => inl e
  | inr obs =>
      match start_time (get_time_bounds g), end_time (get_time_bounds g) with
      | Some t0, Some t1 => inr (mkGPX g obs (date_of t0) (date_of t1))
      | _, _ => inl "AttributeError"
      end
  end.

(** Lines 120-127: the time columns.  [tz_convert] keeps the instant;
    [date] and [time] are read on the local clock. *)
Definition expand_columns (p : Pt.t) : Rec.t :=
  let utc := Pt.utc p in
  let wall := option_map (wall_clock utc_offset s.TIMEZONE) utc in
  Rec.mk p
    (option_map (fun t => datetime_combine (date_of t) 0) utc)
    (option_map time_of_day utc)
    utc
    (option_map (fun t => datetime_combine (date_of t) 0) wall)
    (option_map time_of_day wall)
    s.PLANS.

(** [_expand_time_info].  A frame without rows has no column [utc]
    ([AttributeError]); a column [utc] without any timestamp is tz-naive
    and [tz_convert] refuses it ([TypeError]). *)
Definition _expand_time_info (self : GPX) (df : list Pt.t) : M (list Row.t) :=
  match df with
  | [] => raise "AttributeError"
  | _ =>
      if forallb (fun p => isnull (Pt.utc p)) df then raise "TypeError"
      else
        let df := map expand_columns df in
        events <- sun_events previous_rising next_setting
                    (start_date self) (end_date self) ;;
        let df := assign_phase events df in
        let df1 := merge Rec.id df (agg first df) in
        let df2 := merge (fun lp => Rec.id (fst lp)) df1 (agg last df) in
        ret (map (fun '(r, sp, ep) => Row.mk r sp ep) df2)
  end.

(** [track_data].  [pd.concat] refuses an empty list of frames. *)
Definition track_data (self : GPX) (time : option bool) : M (list Row.t) :=
  match tracks (_gpx_data self) with
  | [] => raise "ValueError"
  | _ =>
      let df := List.concat (map (fun '(index, track) => _parse_track track index)
                            (enumerate (tracks (_gpx_data self)))) in
      df <- _expand_time_info self df ;;
      match time with
      | None => ret df
      | Some true => ret (filter (fun r => negb (isnull (Row.utc r))) df)
      | Some false => ret (filter (fun r => isnull (Row.utc r)) df)
      end
  end.
End Methods.

(** * Vocabulary of the properties *)

Section Vocabulary.
Variable previous_rising : Observer -> Z.
Variable next_setting : Observer -> Z.
Variable utc_offset : string -> Z -> Z.

(** The clock the observer is given for day [d]: 12:00 of that date, as the
    ephemeris reads it, that is on the UTC scale. *)
Definition noon (d : Z) : Z := datetime_combine d (time_of 12 0).

(** Rows in ascending order of [datetime]. *)
Definition chronological : list Ev.t -> Prop :=
  StronglySorted (fun a b => Ev.datetime a <= Ev.datetime b).

(** The phase that begins when the sun sets through the horizon of [p]. *)
Definition darker (p : string) : string :=
  if (p =? s.ASTRO)%string then s.NIGHT
  else if (p =? s.NAUTI)%string then s.ASTRO
  else if (p =? s.CIVIL)%string then s.NAUTI
  else if (p =? s.SHINE)%string then s.CIVIL
  else p.

Definition relabel (e : Ev.t) : Ev.t :=
  if (Ev.direction e =? "set")%string
  then Ev.mk (darker (Ev.phase e)) (Ev.direction e) (Ev.datetime e)
  else e.

(** The answer of the ephemeris at one clock and one horizon. *)
Definition query_at (la lo : Q) (clock : Z) (ph_hz : string * string) : Sun.t :=
  let obs := mkObserver la lo clock (snd ph_hz) in
  Sun.mk (fst ph_hz) (previous_rising obs) (next_setting obs).

(** The four dicts of day [d]. *)
Definition day_rows (la lo : Q) (d : Z) : list Sun.t :=
  map (query_at la lo (noon d)) phases.

(** The days swept, as dates. *)
Definition mission_days (start_date end_date : Z) : list Z :=
  map (fun d => start_date + d) (range (end_date - start_date + 1)).

Definition sun_table (la lo : Q) (start_date end_date : Z) : list Sun.t :=
  flat_map (day_rows la lo) (mission_days start_date end_date).

(** The observer as the sweep of the days [ds] leaves it. *)
Definition swept (ds : list Z) (obs : Observer) : Observer :=
  fold_left
    (fun o d => mkObserver (lat o) (lon o) (noon d) s.SHINE_HORIZ)
    ds obs.

(** The frame after [melt], after [sort_values], and after the shifts. *)
Definition melt_rows (times : list Sun.t) : list Ev.t :=
  map (fun r => Ev.mk (Sun.phase r) "rise" (Sun.rise r)) times ++
  map (fun r => Ev.mk (Sun.phase r) "set" (Sun.set r)) times.

Definition raw_events (la lo : Q) (start_date end_date : Z) : list Ev.t :=
  sort_values (melt_rows (sun_table la lo start_date end_date)).

Definition timeline (la lo : Q) (start_date end_date : Z) : list Ev.t :=
  map relabel (raw_events la lo start_date end_date).

(** The scan of lines 129-132 as one record sees it: the default, then the
    label of every event at or before the record, the last one staying. *)
Definition phase_of (events : list Ev.t) (utc : option Z) : string :=
  fold_left
    (fun ph event => if ge_datetime utc (Ev.datetime event) then Ev.phase event else ph)
    events
    (if isnull utc then s.PLANS else s.NIGHT).

Definition group (df : list Rec.t) (k : nat) : list string :=
  map Rec.phase (filter (fun r => Nat.eqb (Rec.id r) k) df).

(** The phase of the first and of the last row of track [k]. *)
Definition start_phase_of (df : list Rec.t) (k : nat) : string :=
  hd s.PLANS (group df k).
Definition end_phase_of (df : list Rec.t) (k : nat) : string :=
  List.last (group df k) s.PLANS.

(** The concatenated frames of [_parse_track]. *)
Definition parsed (self : GPX) : list Pt.t :=
  List.concat (map (fun '(index, track) => _parse_track track index)
                   (enumerate (tracks (_gpx_data self)))).

(** The timeline [self.sun_events] yields for an observer at [obs]. *)
Definition timeline_of (self : GPX) (obs : Observer) : list Ev.t :=
  timeline (lat obs) (lon obs) (start_date self) (end_date self).

(** The frame with its column [phase]. *)
Definition classified (self : GPX) (obs : Observer) : list Rec.t :=
  assign_phase (timeline_of self obs)
    (map (expand_columns utc_offset) (parsed self)).

(** The frame with the two summary columns. *)
Definition labelled (self : GPX) (obs : Observer) : list Row.t :=
  map (fun r => Row.mk r
                  (start_phase_of (classified self obs) (Rec.id r))
                  (end_phase_of (classified self obs) (Rec.id r)))
      (classified self obs).

(** The rows the argument [time] selects. *)
Definition selected (time : option bool) (df : list Row.t) : list Row.t :=
  match time with
  | None => df
  | Some true => filter (fun r => negb (isnull (Row.utc r))) df
  | Some false => filter (fun r => isnull (Row.utc r)) df
  end.
End Vocabulary.

(** Modelled from the spec: the parser, which is not part of the sources,
    reports as the start of the overall time bounds the earliest timestamp
    across all points. *)
Definition earlier (a b : option Z) : option Z :=
  match a, b with
  | Some x, Some y => Some (Z.min x y)
  | Some x, None => Some x
  | None, _ => b
  end.
Definition earliest_timestamp (g : GPXData) : option Z :=
  fold_right (fun p acc => earlier (time p) acc) None (walk g).

(** The entries of a column below and above a value. *)
Definition count_below (m : Q) (col : list Q) : nat :=
  List.length (filter (fun x => Qltb x m) col).
Definition count_above (m : Q) (col : list Q) : nat :=
  List.length (filter (fun x => Qltb m x) col).

(** [m] is a median of the column: at most half of the entries are below
    it and at most half are above it. *)
Definition is_median (m : Q) (col : list Q) : Prop :=
  (2 * count_below m col <= List.length col)%nat
  /\ (2 * count_above m col <= List.length col)%nat.

(** The relabelling as a relation: [relabeled direction before after]. *)
Inductive relabeled : string -> string -> string -> Prop :=
| keep_rise (p : string) : relabeled "rise" p p
| set_astro : relabeled "set" s.ASTRO s.NIGHT
| set_nauti : relabeled "set" s.NAUTI s.ASTRO
| set_civil : relabeled "set" s.CIVIL s.NAUTI
| set_shine : relabeled "set" s.SHINE s.CIVIL.


(** ** Sample data *)

(** A model sky around the epoch, as seen from Richmond, Virginia, in
    autumn: the sun rises through the horizon one minute later each day, at
    11:59:30 UTC on day 0, and sets one minute earlier each day, at 22:00
    UTC on day 0; it needs thirty minutes for every six degrees. *)
Definition lead (hz : string) : Z :=
  if (hz =? s.ASTRO_HORIZ)%string then 5400
  else if (hz =? s.NAUTI_HORIZ)%string then 3600
  else if (hz =? s.CIVIL_HORIZ)%string then 1800
  else 0.

Definition rising (k : Z) (hz : string) : Z :=
  k * us_per_day + (43170 + 60 * k - lead hz) * us_per_second.

Definition setting (k : Z) (hz : string) : Z :=
  k * us_per_day + (79200 - 60 * k + lead hz) * us_per_second.

Definition sky_previous_rising (obs : Observer) : Z :=
  let k := date_of (date obs) in
  if rising k (horizon obs) <=? date obs
  then rising k (horizon obs) else rising (k - 1) (horizon obs).

Definition sky_next_setting (obs : Observer) : Z :=
  let k := date_of (date obs) in
  if date obs <=? setting k (horizon obs)
  then setting k (horizon obs) else setting (k + 1) (horizon obs).

Definition richmond : Observer :=
  mkObserver (75 # 2) (-387 # 5) 0 "0".

(** Eastern Standard Time, the offset of [s.TIMEZONE] in winter. *)
Definition est (zone : string) (t : Z) : Z := -5 * 3600 * us_per_second.

(** An instant of day [d], from its hour, minute and second. *)
Definition at_ (d h m sec : Z) : Z :=
  datetime_combine d (time_of h m + sec * us_per_second).

(** A mission of three tracks over two days: a leg without timestamps, a
    leg that starts at night and ends in the morning twilight, and a leg
    that starts at the instant of a breakpoint and ends the next evening. *)
Definition sample_data : GPXData :=
  mkData
    [ mkTrack (Some "Base to RIC") None
        [ mkSegment [ mkPoint (751 # 20) (-773 # 10) None;
                      mkPoint (75 # 2) (-387 # 5) None ] ];
      mkTrack (Some "RVA to RIC") (Some "night leg")
        [ mkSegment [ mkPoint (751 # 20) (-774 # 10) (Some (at_ 0 3 0 0));
                      mkPoint (752 # 20) (-775 # 10) (Some (at_ 0 11 0 0)) ] ];
      mkTrack (Some "RIC to Henrico") None
        [ mkSegment [ mkPoint (753 # 20) (-776 # 10) (Some (at_ 0 11 59 30)) ];
          mkSegment [ mkPoint (749 # 20) (-772 # 10) (Some (at_ 1 22 40 0)) ] ] ].

Definition sample_bounds (g : GPXData) : TimeBounds :=
  mkBounds (Some (at_ 0 3 0 0)) (Some (at_ 1 22 40 0)).

(** The time bounds of a file without timestamps. *)
Definition no_bounds (g : GPXData) : TimeBounds := mkBounds None None.

(** The object [GPX(sample)]. *)
Definition sample : GPX :=
  Eval vm_compute in
    match __init__ sample_bounds sample_data with
    | inr self => self
    | inl _ => mkGPX sample_data richmond 0 0
    end.

(** The timeline of the sample mission and the observer after a call. *)
Definition sample_times : list Ev.t :=
  Eval vm_compute in
    match fst (sun_events sky_previous_rising sky_next_setting
                 (start_date sample) (end_date sample) (observer sample)) with
    | inr times => times
    | inl _ => []
    end.

Definition sample_after : Observer :=
  Eval vm_compute in
    snd (sun_events sky_previous_rising sky_next_setting
           (start_date sample) (end_date sample) (observer sample)).

(** The frame [sample.track_data()]. *)
Definition sample_frame : list Row.t :=
  Eval vm_compute in
    match fst (track_data sky_previous_rising sky_next_setting est
                 sample None (observer sample)) with
    | inr df => df
    | inl _ => []
    end.

Definition blank_row : Row.t :=
  Row.mk (Rec.mk (Pt.mk 0 0 None 0 None None) None None None None None "") "" "".

(** Its rows: the first of the night leg, taken before any breakpoint, and
    the first of the last leg, taken at the instant of a breakpoint. *)
Definition sample_row_night : Row.t :=
  Eval vm_compute in nth 2 sample_frame blank_row.
Definition sample_row_boundary : Row.t :=
  Eval vm_compute in nth 4 sample_frame blank_row.

(** The first row of the sample frame, of the leg without timestamps, and
    the frame [sample.track_data(time=False)]. *)
Definition sample_row_untimed : Row.t :=
  Eval vm_compute in nth 0 sample_frame blank_row.

Definition sample_frame_untimed : list Row.t :=
  Eval vm_compute in
    match fst (track_data sky_previous_rising sky_next_setting est
                 sample (Some false) (observer sample)) with
    | inr df => df
    | inl _ => []
    end.

(** A second mission: one leg on the afternoon of day 0. *)
Definition afternoon_data : GPXData :=
  mkData
    [ mkTrack (Some "RIC to Henrico") None
        [ mkSegment [ mkPoint (751 # 20) (-773 # 10) (Some (at_ 0 20 0 0));
                      mkPoint (75 # 2) (-387 # 5) (Some (at_ 0 21 0 0)) ] ] ].

Definition afternoon_bounds (g : GPXData) : TimeBounds :=
  mkBounds (Some (at_ 0 20 0 0)) (Some (at_ 0 21 0 0)).

Definition afternoon : GPX :=
  Eval vm_compute in
    match __init__ afternoon_bounds afternoon_data with
    | inr self => self
    | inl _ => mkGPX afternoon_data richmond 0 0
    end.

Definition afternoon_times : list Ev.t :=
  Eval vm_compute in
    match fst (sun_events sky_previous_rising sky_next_setting
                 (start_date afternoon) (end_date afternoon)
                 (observer afternoon)) with
    | inr times => times
    | inl _ => []
    end.


Definition afternoon_after : Observer :=
  Eval vm_compute in
    snd (sun_events sky_previous_rising sky_next_setting
           (start_date afternoon) (end_date afternoon) (observer afternoon)).

Definition afternoon_frame : list Row.t :=
  Eval vm_compute in
    match fst (track_data sky_previous_rising sky_next_setting est
                 afternoon None (observer afternoon)) with
    | inr df => df
    | inl _ => []
    end.

Definition afternoon_row_first : Row.t :=
  Eval vm_compute in nth 0 afternoon_frame blank_row.
Definition afternoon_row_second : Row.t :=
  Eval vm_compute in nth 1 afternoon_frame blank_row.

(** The frames of the tracks [ts], numbered from [a], one after the other. *)
Definition parse_from (a : nat) (ts : list GPXTrack) : list Pt.t :=
  List.concat (map (fun '(index, track) => _parse_track track index)
                   (combine (seq a (List.length ts)) ts)).

(** [x] lies in the interval from [lo] to [hi], ends included. *)
Definition within (lo hi x : Q) : bool := Qle_bool lo x && Qle_bool x hi.

(** The six labels of [settings.py]. *)
Definition labels : list string :=
  [s.PLANS; s.NIGHT; s.ASTRO; s.NAUTI; s.CIVIL; s.SHINE].

(** * Lemmas *)

Lemma bind_inr {A B} (m : M A) (k : A -> M B) obs a obs' :
  m obs = (inr a, obs') -> bind m k obs = k a obs'.
Proof. intros E. unfold bind. now rewrite E. Qed.

Lemma bind_inl {A B} (m : M A) (k : A -> M B) obs e obs' :
  m obs = (inl e, obs') -> bind m k obs = (inl e, obs').
Proof. intros E. unfold bind. now rewrite E. Qed.

Lemma last_default_irrelevant {A} (l : list A) :
  forall a d d', List.last (a :: l) d = List.last (a :: l) d'.
Proof.
  induction l as [|b l IH]; intros a d d'; [reflexivity|].
  change (List.last (b :: l) d = List.last (b :: l) d'). apply IH.
Qed.

(** ** Sorting *)

Section SortFacts.
Context {A : Type} (ltb : A -> A -> bool).

Lemma insert_by_perm x l : Permutation (insert_by ltb x l) (x :: l).
Proof.
  induction l as [|y l IH]; cbn; [reflexivity|].
  destruct (ltb y x); [|reflexivity].
  rewrite IH. apply perm_swap.
Qed.

Lemma sort_by_perm l : Permutation (sort_by ltb l) l.
Proof.
  induction l as [|x l IH]; cbn; [constructor|].
  rewrite insert_by_perm. now constructor.
Qed.

Lemma sort_by_length l : List.length (sort_by ltb l) = List.length l.
Proof. apply Permutation_length, sort_by_perm. Qed.

Lemma sort_by_In l x : In x (sort_by ltb l) <-> In x l.
Proof.
  split; apply Permutation_in; [|symmetry]; apply sort_by_perm.
Qed.

Variable le : A -> A -> Prop.
Hypothesis le_trans : forall a b c, le a b -> le b c -> le a c.
Hypothesis ltb_true : forall a b, ltb a b = true -> le a b.
Hypothesis ltb_false : forall a b, ltb a b = false -> le b a.

Lemma insert_by_sorted x l :
  StronglySorted le l -> StronglySorted le (insert_by ltb x l).
Proof.
  induction 1 as [|y l Hs IH Hy]; cbn.
  - repeat constructor.
  - destruct (ltb y x) eqn:E.
    + constructor; [exact IH|].
      rewrite Forall_forall in *. intros z Hz.
      apply (Permutation_in _ (insert_by_perm x l)) in Hz.
      destruct Hz as [<-|Hz]; auto.
    + constructor; [now constructor|].
      constructor; [auto|].
      rewrite Forall_forall in *. intros z Hz.
      apply le_trans with y; auto.
Qed.

Lemma sort_by_sorted l : StronglySorted le (sort_by ltb l).
Proof.
  induction l as [|x l IH]; cbn; [constructor|].
  now apply insert_by_sorted.
Qed.
End SortFacts.

Lemma sort_values_chronological times : chronological (sort_values times).
Proof.
  apply sort_by_sorted; intros a b; [intros c|..]; lia.
Qed.


(** ** The relabelling of the settings *)

Lemma setting_shifts_relabel (times : list Ev.t) :
  fold_left shift_setting setting_shifts times = map relabel times.
Proof.
  cbn [fold_left setting_shifts shift_setting].
  rewrite !map_map. apply map_ext. intros [p d t].
  unfold relabel, darker. cbn [Ev.direction Ev.phase Ev.datetime].
  destruct (String.eqb_spec d "set") as [->|Hd].
  - destruct (String.eqb_spec p s.ASTRO) as [->|H1]; [reflexivity|].
    destruct (String.eqb_spec p s.NAUTI) as [->|H2]; [reflexivity|].
    destruct (String.eqb_spec p s.CIVIL) as [->|H3]; [reflexivity|].
    destruct (String.eqb_spec p s.SHINE) as [->|H4]; [reflexivity|].
    apply String.eqb_neq in H1, H2, H3, H4.
    repeat (rewrite ?String.eqb_refl, ?H1, ?H2, ?H3, ?H4;
            cbn [andb Ev.direction Ev.phase]).
    reflexivity.
  - apply String.eqb_neq in Hd.
    repeat (rewrite ?Hd; cbn [andb Ev.direction Ev.phase]).
    reflexivity.
Qed.

(** ** The loop of [sun_events] *)

Section Properties.
Variable previous_rising : Observer -> Z.
Variable next_setting : Observer -> Z.
Variable get_time_bounds : GPXData -> TimeBounds.
Variable utc_offset : string -> Z -> Z.

Local Abbreviation query_at := (query_at previous_rising next_setting).
Local Abbreviation day_rows := (day_rows previous_rising next_setting).
Local Abbreviation sun_table := (sun_table previous_rising next_setting).
Local Abbreviation raw_events := (raw_events previous_rising next_setting).
Local Abbreviation timeline := (timeline previous_rising next_setting).
Local Abbreviation timeline_of := (timeline_of previous_rising next_setting).
Local Abbreviation classified := (classified previous_rising next_setting utc_offset).
Local Abbreviation labelled := (labelled previous_rising next_setting utc_offset).

Lemma inner_loop_run (ps : list (string * string)) :
  forall (acc : list Sun.t) (obs : Observer),
    for_each ps
      (fun times '(phase, horizon) =>
         e <- _sun_event previous_rising next_setting horizon phase ;;
         ret (times ++ [e]))
      acc obs
    = (inr (acc ++ map (query_at (lat obs) (lon obs) (date obs)) ps),
       mkObserver (lat obs) (lon obs) (date obs)
         (List.last (map snd ps) (horizon obs))).
Proof.
  induction ps as [|[ph hz] ps IH]; intros acc obs.
  - destruct obs; simpl. now rewrite app_nil_r.
  - cbn [for_each].
    set (body := fun (times : list Sun.t) '(phase, horizon) => _) in *.
    transitivity
      (for_each ps body
         (acc ++ [query_at (lat obs) (lon obs) (date obs) (ph, hz)])
         (mkObserver (lat obs) (lon obs) (date obs) hz)); [reflexivity|].
    rewrite IH. cbn [lat lon date horizon].
    rewrite <- app_assoc. cbn [app map snd].
    f_equal. f_equal.
    destruct (map snd ps); [reflexivity|].
    cbn [List.last]. apply last_default_irrelevant.
Qed.

Lemma swept_lat ds : forall obs, lat (swept ds obs) = lat obs.
Proof. induction ds; intros; cbn; [|unfold swept in IHds; rewrite IHds]; reflexivity. Qed.

Lemma swept_lon ds : forall obs, lon (swept ds obs) = lon obs.
Proof. induction ds; intros; cbn; [|unfold swept in IHds; rewrite IHds]; reflexivity. Qed.

Lemma outer_loop_run (start_date : Z) (ds : list Z) :
  forall (acc : list Sun.t) (obs : Observer),
    for_each ds
      (fun times d =>
         set_date (datetime_combine (start_date + day * d) (time_of 12 0)) ;;;
         for_each phases
           (fun times '(phase, horizon) =>
              e <- _sun_event previous_rising next_setting horizon phase ;;
              ret (times ++ [e]))
           times)
      acc obs
    = (inr (acc ++ flat_map (day_rows (lat obs) (lon obs))
                     (map (fun d => start_date + d) ds)),
       swept (map (fun d => start_date + d) ds) obs).
Proof.
  induction ds as [|d ds IH]; intros acc obs.
  - cbn. now rewrite app_nil_r.
  - cbn [for_each].
    set (body := fun (times : list Sun.t) (d : Z) => _) in *.
    transitivity
      (for_each ds body
         (acc ++ day_rows (lat obs) (lon obs) (start_date + d))
         (mkObserver (lat obs) (lon obs) (noon (start_date + d)) s.SHINE_HORIZ)).
    + assert (E : body acc d obs
                  = (inr (acc ++ day_rows (lat obs) (lon obs) (start_date + d)),
                     mkObserver (lat obs) (lon obs) (noon (start_date + d))
                       s.SHINE_HORIZ)).
      { unfold body, bind at 1. cbn [set_date].
        rewrite inner_loop_run. cbn [lat lon date].
        unfold day, noon. rewrite Z.mul_1_l. reflexivity. }
      apply (bind_inr _ _ _ _ _ E).
    + rewrite IH. cbn [lat lon map flat_map swept fold_left].
      now rewrite <- app_assoc.
Qed.

Lemma sun_events_loop_run (start_date end_date : Z) (obs : Observer) :
  sun_events_loop previous_rising next_setting start_date end_date obs
  = (inr (sun_table (lat obs) (lon obs) start_date end_date),
     swept (mission_days start_date end_date) obs).
Proof.
  unfold sun_events_loop. rewrite outer_loop_run.
  unfold day. rewrite Z.quot_1_r. reflexivity.
Qed.

Lemma mission_days_length start_date end_date :
  List.length (mission_days start_date end_date)
  = Z.to_nat (end_date - start_date + 1).
Proof.
  unfold mission_days, range. now rewrite !length_map, length_seq.
Qed.

Lemma sun_table_length la lo start_date end_date :
  List.length (sun_table la lo start_date end_date)
  = (4 * Z.to_nat (end_date - start_date + 1))%nat.
Proof.
  unfold sun_table. rewrite <- mission_days_length.
  induction (mission_days start_date end_date) as [|d ds IH];
    [reflexivity|].
  cbn [flat_map]. rewrite length_app, IH. cbn [List.length day_rows phases map].
  lia.
Qed.

Lemma melt_sun_table la lo start_date end_date :
  melt (sun_table la lo start_date end_date)
  = if end_date <? start_date then inl "KeyError"
    else inr (melt_rows (sun_table la lo start_date end_date)).
Proof.
  pose proof (sun_table_length la lo start_date end_date) as L.
  destruct (Z.ltb_spec end_date start_date) as [H|H].
  - replace (Z.to_nat (end_date - start_date + 1)) with 0%nat in L by lia.
    destruct (sun_table la lo start_date end_date); [reflexivity|discriminate].
  - destruct (sun_table la lo start_date end_date); [|reflexivity].
    cbn in L. lia.
Qed.

Lemma sun_events_run start_date end_date obs :
  start_date <= end_date ->
  sun_events previous_rising next_setting start_date end_date obs
  = (inr (timeline (lat obs) (lon obs) start_date end_date),
     swept (mission_days start_date end_date) obs).
Proof.
  intros H. unfold sun_events.
  rewrite (bind_inr _ _ _ _ _ (sun_events_loop_run start_date end_date obs)).
  rewrite melt_sun_table.
  destruct (Z.ltb_spec end_date start_date); [lia|].
  unfold ret. now rewrite setting_shifts_relabel.
Qed.

Lemma sun_events_no_day start_date end_date obs :
  end_date < start_date ->
  sun_events previous_rising next_setting start_date end_date obs
  = (inl "KeyError", obs).
Proof.
  intros H. unfold sun_events.
  rewrite (bind_inr _ _ _ _ _ (sun_events_loop_run start_date end_date obs)).
  rewrite melt_sun_table.
  destruct (Z.ltb_spec end_date start_date); [|lia].
  unfold raise, mission_days, range.
  replace (Z.to_nat (end_date - start_date + 1)) with 0%nat by lia.
  reflexivity.
Qed.

(** The run of [sun_events] reads only the position of the observer. *)
Lemma swept_position ds obs1 obs2 :
  ds <> [] -> lat obs1 = lat obs2 -> lon obs1 = lon obs2 ->
  swept ds obs1 = swept ds obs2.
Proof.
  destruct ds as [|d ds]; [congruence|]. intros _ E1 E2.
  cbn. now rewrite E1, E2.
Qed.

Lemma mission_days_nonempty start_date end_date :
  start_date <= end_date -> mission_days start_date end_date <> [].
Proof.
  intros H E. apply (f_equal (@List.length Z)) in E.
  rewrite mission_days_length in E. cbn in E. lia.
Qed.

Lemma chronological_relabel l : chronological l -> chronological (map relabel l).
Proof.
  assert (D : forall e, Ev.datetime (relabel e) = Ev.datetime e).
  { intros e. unfold relabel. now destruct (_ =? _)%string. }
  induction 1 as [|a l Hs IH Ha]; cbn; constructor; [exact IH|].
  rewrite Forall_forall in *. intros x Hx.
  apply in_map_iff in Hx. destruct Hx as [y [<- Hy]].
  rewrite !D. auto.
Qed.

Lemma timeline_chronological la lo start_date end_date :
  chronological (timeline la lo start_date end_date).
Proof. apply chronological_relabel, sort_values_chronological. Qed.

(** ** The column [phase], row by row *)

Lemma utc_set_phase r p : Rec.utc (Rec.set_phase r p) = Rec.utc r.
Proof. reflexivity. Qed.

Lemma scan_rows (events : list Ev.t) :
  forall (df : list Rec.t) (ph : Rec.t -> string),
    fold_left
      (fun df event =>
         loc_set_phase (fun r => ge_datetime (Rec.utc r) (Ev.datetime event))
           (Ev.phase event) df)
      events (map (fun r => Rec.set_phase r (ph r)) df)
    = map (fun r =>
             Rec.set_phase r
               (fold_left
                  (fun p event =>
                     if ge_datetime (Rec.utc r) (Ev.datetime event)
                     then Ev.phase event else p)
                  events (ph r)))
          df.
Proof.
  induction events as [|ev events IH]; intros df ph; [reflexivity|].
  cbn [fold_left]. unfold loc_set_phase at 2. rewrite map_map.
  rewrite <- (IH df (fun r => if ge_datetime (Rec.utc r) (Ev.datetime ev)
                             then Ev.phase ev else ph r)).
  f_equal. apply map_ext. intros r. rewrite utc_set_phase.
  now destruct (ge_datetime _ _).
Qed.

Lemma assign_phase_rows events df :
  assign_phase events df
  = map (fun r => Rec.set_phase r (phase_of events (Rec.utc r))) df.
Proof.
  unfold assign_phase, loc_set_phase at 2. rewrite map_map.
  rewrite (map_ext _ (fun r => Rec.set_phase r
                                 (if isnull (Rec.utc r) then s.PLANS else s.NIGHT))).
  - apply scan_rows.
  - intros r. rewrite utc_set_phase. now destruct (isnull _).
Qed.

(** ** Grouping and merging *)

Lemma filter_key_flat_map {R} (k : nat) (F : nat -> list R) (keys : list nat) :
  NoDup keys ->
  filter (fun kr => Nat.eqb (fst kr) k)
         (flat_map (fun k' => map (fun p => (k', p)) (F k')) keys)
  = if in_dec Nat.eq_dec k keys then map (fun p => (k, p)) (F k) else [].
Proof.
  induction 1 as [|k' keys Hk' Hnd IH]; [reflexivity|].
  cbn [flat_map]. rewrite filter_app, IH.
  destruct (Nat.eq_dec k' k) as [->|Hne].
  - rewrite forallb_filter_id.
    + destruct (in_dec Nat.eq_dec k (k :: keys)) as [_|n]; [|cbn in n; tauto].
      destruct (in_dec Nat.eq_dec k keys); [contradiction|apply app_nil_r].
    + apply forallb_forall. intros x Hx. apply in_map_iff in Hx.
      destruct Hx as [p [<- _]]. apply Nat.eqb_refl.
  - replace (filter _ (map (fun p => (k', p)) (F k'))) with (@nil (nat * R)).
    + cbn [app]. destruct (in_dec Nat.eq_dec k keys) as [i|n];
        destruct (in_dec Nat.eq_dec k (k' :: keys)) as [i'|n']; try reflexivity.
      * exfalso. apply n'. now right.
      * exfalso. destruct i' as [E|i']; [congruence|contradiction].
    + symmetry. induction (F k') as [|p ps IHp]; [reflexivity|].
      cbn. rewrite (proj2 (Nat.eqb_neq k' k) Hne). exact IHp.
Qed.

Lemma groupby_keys_NoDup (df : list Rec.t) :
  NoDup (sort_by Nat.ltb (nodup Nat.eq_dec (map Rec.id df))).
Proof.
  apply (Permutation_NoDup (l := nodup Nat.eq_dec (map Rec.id df))).
  - symmetry. apply sort_by_perm.
  - apply NoDup_nodup.
Qed.

Lemma groupby_keys_In (df : list Rec.t) (k : nat) :
  In k (sort_by Nat.ltb (nodup Nat.eq_dec (map Rec.id df)))
  <-> exists r, In r df /\ Rec.id r = k.
Proof.
  rewrite sort_by_In, nodup_In, in_map_iff.
  split; intros [r [H1 H2]]; exists r; auto.
Qed.

Lemma group_absent (df : list Rec.t) (k : nat) :
  (~ exists r, In r df /\ Rec.id r = k) -> group df k = [].
Proof.
  intros H. unfold group.
  induction df as [|r df IH]; [reflexivity|].
  cbn. destruct (Nat.eqb_spec (Rec.id r) k) as [E|E].
  - exfalso. apply H. exists r. split; [now left|exact E].
  - apply IH. intros [r' [H1 H2]]. apply H. exists r'. split; [now right|exact H2].
Qed.

Lemma agg_filter (f : list string -> list string) (df : list Rec.t) (k : nat) :
  f [] = [] ->
  filter (fun kr => Nat.eqb (fst kr) k) (agg f df)
  = map (fun p => (k, p)) (f (group df k)).
Proof.
  intros Hf.
  assert (U : agg f df
              = flat_map (fun k' => map (fun p => (k', p)) (f (group df k')))
                  (sort_by Nat.ltb (nodup Nat.eq_dec (map Rec.id df)))).
  { unfold agg, groupby_id.
    induction (sort_by Nat.ltb (nodup Nat.eq_dec (map Rec.id df)))
      as [|k' keys IH]; [reflexivity|].
    cbn [map flat_map]. now rewrite IH. }
  rewrite U.
  rewrite (filter_key_flat_map k (fun k' => f (group df k'))
             _ (groupby_keys_NoDup df)).
  destruct (in_dec _ _ _) as [i|n]; [reflexivity|].
  rewrite groupby_keys_In in n. rewrite (group_absent df k n), Hf. reflexivity.
Qed.

Lemma merge_agg {L} (lid : L -> nat) (left : list L)
    (f : list string -> list string) (df : list Rec.t) :
  f [] = [] ->
  merge lid left (agg f df)
  = flat_map (fun l => map (fun p => (l, p)) (f (group df (lid l)))) left.
Proof.
  intros Hf. unfold merge. apply flat_map_ext. intros l.
  rewrite agg_filter by exact Hf. now rewrite map_map.
Qed.

Lemma group_present (df : list Rec.t) (r : Rec.t) :
  In r df -> group df (Rec.id r) <> [].
Proof.
  intros H E. unfold group in E. apply map_eq_nil in E.
  assert (I : In r (filter (fun r' => Nat.eqb (Rec.id r') (Rec.id r)) df)).
  { apply filter_In. split; [exact H|apply Nat.eqb_refl]. }
  rewrite E in I. exact I.
Qed.

Lemma first_nonempty (g : list string) d : g <> [] -> first g = [hd d g].
Proof. destruct g; [congruence|reflexivity]. Qed.

Lemma last_nonempty (g : list string) d : g <> [] -> last g = [List.last g d].
Proof.
  intros H. unfold last.
  destruct (exists_last H) as [g' [p ->]].
  rewrite rev_app_distr, last_last. reflexivity.
Qed.

Lemma merge_summaries (df : list Rec.t) :
  map (fun '(r, sp, ep) => Row.mk r sp ep)
      (merge (fun lp => Rec.id (fst lp))
             (merge Rec.id df (agg first df)) (agg last df))
  = map (fun r => Row.mk r (start_phase_of df (Rec.id r))
                            (end_phase_of df (Rec.id r)))
        df.
Proof.
  rewrite !merge_agg by reflexivity.
  assert (G : forall l, (forall r, In r l -> In r df) ->
    map (fun '(r, sp, ep) => Row.mk r sp ep)
      (flat_map
         (fun l0 : Rec.t * string =>
            map (fun p => (l0, p)) (last (group df (Rec.id (fst l0)))))
         (flat_map
            (fun l0 => map (fun p => (l0, p)) (first (group df (Rec.id l0))))
            l))
    = map (fun r => Row.mk r (start_phase_of df (Rec.id r))
                              (end_phase_of df (Rec.id r))) l).
  { induction l as [|r l IH]; intros Hl; [reflexivity|].
    cbn [flat_map map].
    rewrite (first_nonempty _ s.PLANS (group_present df r (Hl r (or_introl eq_refl)))).
    cbn [map app flat_map fst].
    rewrite (last_nonempty _ s.PLANS (group_present df r (Hl r (or_introl eq_refl)))).
    cbn [map app]. f_equal. apply IH. intros r' Hr'. apply Hl. now right. }
  apply G. auto.
Qed.

(** ** [track_data] in closed form *)

Lemma _expand_time_info_eval self obs :
  _expand_time_info previous_rising next_setting utc_offset self (parsed self) obs
  = match parsed self with
    | [] => (inl "AttributeError", obs)
    | _ =>
        if forallb (fun p => isnull (Pt.utc p)) (parsed self)
        then (inl "TypeError", obs)
        else if end_date self <? start_date self
             then (inl "KeyError", obs)
             else (inr (labelled self obs),
                   swept (mission_days (start_date self) (end_date self)) obs)
    end.
Proof.
  unfold _expand_time_info, labelled, classified, timeline_of.
  destruct (parsed self) as [|p df]; [reflexivity|].
  destruct (forallb _ (p :: df)); [reflexivity|].
  destruct (Z.ltb_spec (end_date self) (start_date self)) as [H|H].
  - now rewrite (bind_inl _ _ _ _ _
                   (sun_events_no_day _ _ obs H)).
  - rewrite (bind_inr _ _ _ _ _
               (sun_events_run _ _ obs H)).
    unfold ret. now rewrite merge_summaries.
Qed.

Lemma track_data_eval self time obs :
  track_data previous_rising next_setting utc_offset self time obs
  = match tracks (_gpx_data self), parsed self with
    | [], _ => (inl "ValueError", obs)
    | _, [] => (inl "AttributeError", obs)
    | _, _ =>
        if forallb (fun p => isnull (Pt.utc p)) (parsed self)
        then (inl "TypeError", obs)
        else if end_date self <? start_date self
             then (inl "KeyError", obs)
             else (inr (selected time (labelled self obs)),
                   swept (mission_days (start_date self) (end_date self)) obs)
    end.
Proof.
  unfold track_data. fold (parsed self).
  destruct (tracks (_gpx_data self)) as [|tr trs] eqn:Et; [reflexivity|].
  unfold bind. rewrite _expand_time_info_eval.
  destruct (parsed self) as [|p df]; [reflexivity|].
  destruct (forallb _ (p :: df)); [reflexivity|].
  destruct (end_date self <? start_date self); [reflexivity|].
  destruct time as [[|]|]; reflexivity.
Qed.

(** What a successful call tells about [self], and what it returns. *)
Lemma track_data_inr self time obs out obs' :
  track_data previous_rising next_setting utc_offset self time obs
    = (inr out, obs') ->
  start_date self <= end_date self
  /\ out = selected time (labelled self obs)
  /\ obs' = swept (mission_days (start_date self) (end_date self)) obs.
Proof.
  rewrite track_data_eval.
  destruct (tracks (_gpx_data self)); [discriminate|].
  destruct (parsed self); [discriminate|].
  destruct (forallb _ _); [discriminate|].
  destruct (Z.ltb_spec (end_date self) (start_date self)); [discriminate|].
  intros E. inversion E. auto.
Qed.

(** When the call succeeds: the mission has a timestamped point and its
    dates are in order. *)
Lemma track_data_succeeds self time obs :
  start_date self <= end_date self ->
  (exists p, In p (parsed self) /\ Pt.utc p <> None) ->
  track_data previous_rising next_setting utc_offset self time obs
  = (inr (selected time (labelled self obs)),
     swept (mission_days (start_date self) (end_date self)) obs).
Proof.
  intros Hd [p [Hp Hu]]. rewrite track_data_eval.
  assert (Hf : forallb (fun p => isnull (Pt.utc p)) (parsed self) = false).
  { apply not_true_is_false. intros Hf.
    rewrite forallb_forall in Hf. specialize (Hf p Hp).
    destruct (Pt.utc p); [discriminate|congruence]. }
  destruct (tracks (_gpx_data self)) eqn:Et.
  - unfold parsed in Hp. rewrite Et in Hp. destruct Hp.
  - destruct (parsed self) eqn:Ep; [destruct Hp|].
    rewrite Hf.
    destruct (Z.ltb_spec (end_date self) (start_date self)); [lia|reflexivity].
Qed.

(** ** The timeline day by day *)





Lemma mission_days_In start_date end_date d :
  In d (mission_days start_date end_date) <-> start_date <= d <= end_date.
Proof.
  unfold mission_days, range. rewrite map_map, in_map_iff. split.
  - intros [k [<- Hk]]. apply in_seq in Hk. lia.
  - intros H. exists (Z.to_nat (d - start_date)). split; [lia|].
    apply in_seq. lia.
Qed.

Lemma raw_events_shape la lo start_date end_date e :
  In e (raw_events la lo start_date end_date) ->
  (Ev.direction e = "rise" \/ Ev.direction e = "set")
  /\ In (Ev.phase e) (map fst phases).
Proof.
  unfold raw_events, sort_values. rewrite sort_by_In. unfold melt_rows.
  assert (P : forall r, In r (sun_table la lo start_date end_date) ->
                        In (Sun.phase r) (map fst phases)).
  { intros r Hr. unfold sun_table in Hr. apply in_flat_map in Hr.
    destruct Hr as [d [_ Hr]]. unfold day_rows in Hr.
    apply in_map_iff in Hr. destruct Hr as [ph_hz [<- Hp]].
    cbn [Sun.phase query_at]. now apply in_map. }
  intros H. apply in_app_or in H.
  destruct H as [H|H]; apply in_map_iff in H; destruct H as [r [<- Hr]];
    cbn [Ev.direction Ev.phase]; split; auto.
Qed.

Lemma relabel_relabeled e :
  (Ev.direction e = "rise" \/ Ev.direction e = "set") ->
  In (Ev.phase e) (map fst phases) ->
  Ev.datetime (relabel e) = Ev.datetime e
  /\ Ev.direction (relabel e) = Ev.direction e
  /\ relabeled (Ev.direction e) (Ev.phase e) (Ev.phase (relabel e)).
Proof.
  destruct e as [p d t]. cbn [Ev.direction Ev.phase Ev.datetime].
  intros [->| ->] Hp.
  - repeat split. constructor.
  - repeat split.
    cbn in Hp. destruct Hp as [<-|[<-|[<-|[<-|[]]]]]; constructor.
Qed.

Lemma relabeled_functional d p q q' :
  relabeled d p q -> relabeled d p q' -> q = q'.
Proof.
  intros H H'. inversion H; subst; inversion H'; subst;
    reflexivity || discriminate.
Qed.

Lemma Forall2_map_self {X Y} (R : X -> Y -> Prop) (f : X -> Y) (l : list X) :
  (forall x, In x l -> R x (f x)) -> Forall2 R l (map f l).
Proof.
  induction l as [|x l IH]; intros H; cbn; constructor.
  - apply H. now left.
  - apply IH. intros y Hy. apply H. now right.
Qed.



Lemma noon_fields d : date_of (noon d) = d /\ time_of_day (noon d) = time_of 12 0.
Proof.
  unfold date_of, time_of_day, noon, datetime_combine, time_of,
    us_per_day, us_per_second.
  split; symmetry.
  - apply (Z.div_unique_pos _ _ d 43200000000); lia.
  - apply (Z.mod_unique_pos _ _ d 43200000000); lia.
Qed.

(** ** The scan of one record *)

Lemma scan_later_events (utc : Z) (l : list Ev.t) (ph : string) :
  Forall (fun b => utc < Ev.datetime b) l ->
  fold_left
    (fun ph event =>
       if ge_datetime (Some utc) (Ev.datetime event) then Ev.phase event else ph)
    l ph = ph.
Proof.
  induction 1 as [|b l Hb Hl IH]; [reflexivity|].
  cbn [fold_left ge_datetime].
  destruct (Z.leb_spec (Ev.datetime b) utc); [lia|exact IH].
Qed.

Lemma phase_of_split (events l1 l2 : list Ev.t) (b : Ev.t) (t : Z) :
  events = l1 ++ b :: l2 ->
  Ev.datetime b <= t ->
  Forall (fun b' => t < Ev.datetime b') l2 ->
  phase_of events (Some t) = Ev.phase b.
Proof.
  intros -> Hb H2. unfold phase_of.
  rewrite fold_left_app. cbn [fold_left ge_datetime].
  rewrite (proj2 (Z.leb_le _ _) Hb). now apply scan_later_events.
Qed.

Lemma phase_of_before (events : list Ev.t) (t : Z) :
  Forall (fun b => t < Ev.datetime b) events ->
  phase_of events (Some t) = s.NIGHT.
Proof. intros H. unfold phase_of. now apply scan_later_events. Qed.

Lemma phase_of_missing (events : list Ev.t) : phase_of events None = s.PLANS.
Proof.
  unfold phase_of. cbn [isnull].
  induction events as [|b l IH]; [reflexivity|exact IH].
Qed.

(** The last event at or before [t], when there is one. *)
Lemma last_event_before (events : list Ev.t) (t : Z) :
  (exists b, In b events /\ Ev.datetime b <= t) ->
  exists l1 b l2,
    events = l1 ++ b :: l2
    /\ Ev.datetime b <= t
    /\ Forall (fun b' => t < Ev.datetime b') l2.
Proof.
  induction events as [|a l IH]; intros [b [Hin Hle]]; [destruct Hin|].
  destruct (Forall_dec (fun b' => t < Ev.datetime b')
              (fun b' => Z_lt_dec t (Ev.datetime b')) l) as [Hall|Hnot].
  - destruct Hin as [->|Hin].
    + exists [], b, l. auto.
    + rewrite Forall_forall in Hall. specialize (Hall b Hin). lia.
  - destruct IH as [l1 [c [l2 [E [Hc H2]]]]].
    + apply neg_Forall_Exists_neg in Hnot;
        [|intros x; apply Z_lt_dec].
      apply Exists_exists in Hnot. destruct Hnot as [x [Hx Hn]].
      exists x. split; [exact Hx|lia].
    + exists (a :: l1), c, l2. rewrite E. auto.
Qed.

Lemma chronological_split (l1 l2 : list Ev.t) (b : Ev.t) :
  chronological (l1 ++ b :: l2) ->
  Forall (fun b' => Ev.datetime b' <= Ev.datetime b) l1.
Proof.
  induction l1 as [|a l1 IH]; intros H; [constructor|].
  cbn in H. apply StronglySorted_inv in H. destruct H as [Hs Ha].
  constructor; [|now apply IH].
  rewrite Forall_forall in Ha. apply Ha, in_elt.
Qed.

Lemma phase_of_cases (events : list Ev.t) (t : Z) :
  phase_of events (Some t) = s.NIGHT
  \/ exists b, In b events /\ phase_of events (Some t) = Ev.phase b.
Proof.
  destruct (Forall_dec (fun b' => t < Ev.datetime b')
              (fun b' => Z_lt_dec t (Ev.datetime b')) events) as [Hall|Hnot].
  - left. now apply phase_of_before.
  - right. destruct (last_event_before events t) as [l1 [b [l2 [E [Hb H2]]]]].
    + apply neg_Forall_Exists_neg in Hnot; [|intros x; apply Z_lt_dec].
      apply Exists_exists in Hnot. destruct Hnot as [x [Hx Hn]].
      exists x. split; [exact Hx|lia].
    + exists b. split; [rewrite E; apply in_elt|].
      now apply (phase_of_split events l1 l2).
Qed.

Lemma timeline_phases la lo start_date end_date b :
  In b (timeline la lo start_date end_date) ->
  In (Ev.phase b) [s.NIGHT; s.ASTRO; s.NAUTI; s.CIVIL; s.SHINE].
Proof.
  unfold timeline. rewrite in_map_iff. intros [e [<- He]].
  apply raw_events_shape in He. destruct He as [Hd Hp].
  destruct e as [p d t]. cbn [Ev.direction Ev.phase] in *.
  cbn in Hp.
  destruct Hd as [-> | ->]; destruct Hp as [<-|[<-|[<-|[<-|[]]]]];
    vm_compute; tauto.
Qed.

(** ** The rows of the returned frame *)

Lemma selected_In time df row : In row (selected time df) -> In row df.
Proof.
  destruct time as [[|]|]; cbn [selected]; [| |auto];
    intros H; apply filter_In in H; tauto.
Qed.

Lemma labelled_phase self obs row :
  In row (labelled self obs) ->
  Row.phase row = phase_of (timeline_of self obs) (Row.utc row).
Proof.
  unfold labelled. rewrite in_map_iff. intros [r [<- Hr]].
  unfold classified in Hr. rewrite assign_phase_rows in Hr.
  apply in_map_iff in Hr. destruct Hr as [r0 [<- _]]. reflexivity.
Qed.

(** ** Calls in sequence, and the rows of one track *)

Lemma labelled_position self obs obs2 :
  lat obs2 = lat obs -> lon obs2 = lon obs ->
  labelled self obs2 = labelled self obs.
Proof.
  intros E1 E2. unfold labelled, classified, timeline_of. now rewrite E1, E2.
Qed.

Lemma track_data_again self time time' obs obs2 out obs' :
  track_data previous_rising next_setting utc_offset self time obs
    = (inr out, obs') ->
  lat obs2 = lat obs -> lon obs2 = lon obs ->
  track_data previous_rising next_setting utc_offset self time' obs2
  = (inr (selected time' (labelled self obs)), obs').
Proof.
  intros H E1 E2. rewrite track_data_eval in *.
  destruct (tracks (_gpx_data self)); [discriminate|].
  destruct (parsed self); [discriminate|].
  destruct (forallb _ _); [discriminate|].
  destruct (Z.ltb_spec (end_date self) (start_date self)) as [Hd|Hd];
    [discriminate|].
  injection H as _ <-.
  rewrite (labelled_position self obs obs2 E1 E2).
  f_equal. apply swept_position; auto.
  now apply mission_days_nonempty.
Qed.

Lemma filter_partition {X} (g f f' : X -> bool) (l : list X) :
  (forall x, f' x = negb (f x)) ->
  Permutation (filter g l) (filter g (filter f l) ++ filter g (filter f' l)).
Proof.
  intros Hf. induction l as [|x l IH]; [reflexivity|].
  cbn [filter]. rewrite Hf.
  destruct (f x); cbn [negb filter]; destruct (g x); cbn [app]; auto.
  now apply Permutation_cons_app.
Qed.

Lemma filter_map_swap {X Y} (f : Y -> bool) (g : X -> Y) (l : list X) :
  filter f (map g l) = map g (filter (fun x => f (g x)) l).
Proof.
  induction l as [|x l IH]; [reflexivity|].
  cbn. destruct (f (g x)); cbn; now rewrite IH.
Qed.

Lemma last_cons_default {X} (l : list X) (x d : X) :
  List.last (x :: l) d = List.last l x.
Proof.
  revert x d. induction l as [|y l IH]; intros x d; [reflexivity|].
  change (List.last (y :: l) d = List.last (y :: l) x).
  now rewrite !IH.
Qed.

Lemma last_map {X Y} (f : X -> Y) (l : list X) (d : X) :
  List.last (map f l) (f d) = f (List.last l d).
Proof.
  revert d. induction l as [|x l IH]; intros d; [reflexivity|].
  cbn [map]. rewrite !last_cons_default. apply IH.
Qed.

Lemma labelled_records self obs :
  map (fun row => Rec.pt (Row.rec row)) (labelled self obs) = parsed self.
Proof.
  unfold labelled, classified. rewrite assign_phase_rows, !map_map.
  cbn [Row.rec Rec.pt Rec.set_phase expand_columns]. apply map_id.
Qed.

Lemma labelled_summary self obs row :
  In row (labelled self obs) ->
  exists first rest,
    filter (fun r => Nat.eqb (Row.id r) (Row.id row)) (labelled self obs)
      = first :: rest
    /\ Row.start_phase row = Row.phase first
    /\ Row.end_phase row = Row.phase (List.last rest first).
Proof.
  unfold labelled at 1. rewrite in_map_iff. intros [r [<- Hr]].
  set (C := classified self obs) in *.
  set (mk := fun r => Row.mk r (start_phase_of C (Rec.id r))
                               (end_phase_of C (Rec.id r))).
  change (labelled self obs) with (map mk C).
  rewrite filter_map_swap.
  set (F := filter _ C).
  assert (EF : F = filter (fun x => Nat.eqb (Rec.id x) (Rec.id r)) C)
    by reflexivity.
  clearbody F. subst F.
  cbn [Row.start_phase Row.end_phase].
  unfold start_phase_of, end_phase_of, group.
  assert (I : In r (filter (fun x => Nat.eqb (Rec.id x) (Rec.id r)) C)).
  { apply filter_In. split; [exact Hr|apply Nat.eqb_refl]. }
  destruct (filter (fun x => Nat.eqb (Rec.id x) (Rec.id r)) C) as [|r1 rest];
    [destruct I|].
  exists (mk r1), (map mk rest). split; [reflexivity|].
  split; [reflexivity|].
  rewrite last_map. cbn [map]. rewrite last_cons_default.
  now rewrite (last_map Rec.phase).
Qed.

(** ** The median of a column *)

Lemma Qltb_lt x y : Qltb x y = true <-> (x < y)%Q.
Proof.
  unfold Qltb. rewrite negb_true_iff. split.
  - intros H. apply Qnot_le_lt. intros L.
    apply Qle_bool_iff in L. congruence.
  - intros H. apply not_true_is_false. intros L.
    apply Qle_bool_iff in L. now apply (Qlt_not_le x y).
Qed.

Lemma Qltb_false x y : Qltb x y = false -> (y <= x)%Q.
Proof.
  unfold Qltb. rewrite negb_false_iff. apply Qle_bool_iff.
Qed.

Lemma column_sorted col : StronglySorted Qle (sort_by Qltb col).
Proof.
  apply sort_by_sorted.
  - intros a b c. apply Qle_trans.
  - intros a b H. apply Qlt_le_weak. now apply Qltb_lt.
  - intros a b. apply Qltb_false.
Qed.

Lemma filter_length_perm {X} (f : X -> bool) (l l' : list X) :
  Permutation l l' ->
  List.length (filter f l) = List.length (filter f l').
Proof.
  induction 1 as [|x l l' _ IH|x y l|l l' l'' _ IH1 _ IH2]; cbn.
  - reflexivity.
  - destruct (f x); cbn; now rewrite IH.
  - destruct (f x), (f y); reflexivity.
  - now rewrite IH1.
Qed.

Lemma filter_length_le {X} (f : X -> bool) (l : list X) :
  (List.length (filter f l) <= List.length l)%nat.
Proof.
  induction l as [|x l IH]; cbn; [lia|]. destruct (f x); cbn; lia.
Qed.

Lemma filter_none {X} (f : X -> bool) (l : list X) :
  Forall (fun x => f x = false) l -> filter f l = [].
Proof.
  induction 1 as [|x l Hx _ IH]; cbn; [reflexivity|]. now rewrite Hx.
Qed.

Lemma sorted_around (l1 l2 : list Q) (x : Q) :
  StronglySorted Qle (l1 ++ x :: l2) ->
  Forall (fun y => (y <= x)%Q) (l1 ++ [x]) /\ Forall (fun y => (x <= y)%Q) (x :: l2).
Proof.
  induction l1 as [|a l1 IH]; cbn; intros H;
    apply StronglySorted_inv in H; destruct H as [Hs Ha].
  - split; repeat constructor; try apply Qle_refl. exact Ha.
  - destruct (IH Hs) as [H1 H2]. split; [|exact H2].
    constructor; [|exact H1].
    rewrite Forall_forall in Ha. apply Ha, in_elt.
Qed.

Lemma count_below_sorted (l1 l2 : list Q) (x m : Q) :
  StronglySorted Qle (l1 ++ x :: l2) ->
  (m <= x)%Q ->
  (count_below m (l1 ++ x :: l2) <= List.length l1)%nat.
Proof.
  intros Hs Hm. unfold count_below.
  rewrite filter_app, length_app.
  destruct (sorted_around l1 l2 x Hs) as [_ H2].
  rewrite (filter_none _ (x :: l2)).
  - pose proof (filter_length_le (fun y => Qltb y m) l1). cbn. lia.
  - rewrite Forall_forall in *. intros y Hy.
    apply not_true_is_false. intros L. apply Qltb_lt in L.
    specialize (H2 y Hy).
    apply (Qlt_not_le y m L). now apply Qle_trans with x.
Qed.

Lemma count_above_sorted (l1 l2 : list Q) (x m : Q) :
  StronglySorted Qle (l1 ++ x :: l2) ->
  (x <= m)%Q ->
  (count_above m (l1 ++ x :: l2) <= List.length l2)%nat.
Proof.
  intros Hs Hm. unfold count_above.
  change (l1 ++ x :: l2) with (l1 ++ [x] ++ l2). rewrite app_assoc.
  rewrite filter_app, length_app.
  destruct (sorted_around l1 l2 x Hs) as [H1 _].
  rewrite (filter_none _ (l1 ++ [x])).
  - pose proof (filter_length_le (fun y => Qltb m y) l2). cbn. lia.
  - rewrite Forall_forall in *. intros y Hy.
    apply not_true_is_false. intros L. apply Qltb_lt in L.
    specialize (H1 y Hy).
    apply (Qlt_not_le m y L). now apply Qle_trans with x.
Qed.

Lemma sorted_nth (l : list Q) :
  StronglySorted Qle l ->
  forall i j, (i <= j < List.length l)%nat -> (nth i l 0 <= nth j l 0)%Q.
Proof.
  induction 1 as [|a l Hs IH Ha]; intros i j Hij; [cbn in Hij; lia|].
  destruct i as [|i], j as [|j]; cbn [nth].
  - apply Qle_refl.
  - rewrite Forall_forall in Ha. apply Ha, nth_In. cbn in Hij. lia.
  - lia.
  - apply IH. cbn in Hij. lia.
Qed.

Lemma mean_between (a b : Q) : (a <= b)%Q -> (a <= (a + b) / 2 <= b)%Q.
Proof.
  intros H.
  assert (E : ((a + b) / 2 == (a + b) * (1 # 2))%Q) by reflexivity.
  rewrite E. split; lra.
Qed.

(** The value [np.median] takes on a column is a median of the column: at
    most half of the entries are below it and at most half above. *)
Lemma column_median_is_median (col : list Q) :
  col <> [] -> is_median (column_median col) col.
Proof.
  intros Hne. unfold is_median, column_median.
  set (part := sort_by Qltb col).
  pose proof (sort_by_perm Qltb col) as Hp. fold part in Hp.
  pose proof (column_sorted col) as Hs. fold part in Hs.
  pose proof (Permutation_length Hp) as Hl.
  assert (Hpos : (0 < List.length col)%nat)
    by (destruct col; [congruence|cbn; lia]).
  assert (CB : forall m, count_below m col = count_below m part)
    by (intros m; symmetry; apply filter_length_perm, Hp).
  assert (CA : forall m, count_above m col = count_above m part)
    by (intros m; symmetry; apply filter_length_perm, Hp).
  rewrite !CB, !CA, <- Hl.
  rewrite <- Hl in Hpos.
  set (n := List.length part) in *.
  destruct (Nat.even n) eqn:Ev.
  - apply Nat.even_spec in Ev. destruct Ev as [k Ek].
    assert (Hk : (n / 2 = k)%nat)
      by (rewrite Ek, Nat.mul_comm; apply Nat.div_mul; lia).
    rewrite Hk.
    assert (Hab : (nth (k - 1) part 0 <= nth k part 0)%Q)
      by (apply sorted_nth; [exact Hs|fold n; lia]).
    destruct (mean_between _ _ Hab) as [Ha Hb].
    split.
    + destruct (nth_split part 0%Q (n := k)) as [l1 [l2 [E L1]]]; [fold n; lia|].
      rewrite E in Hs. pose proof (count_below_sorted l1 l2 _ _ Hs Hb) as B.
      rewrite <- E in B. lia.
    + destruct (nth_split part 0%Q (n := (k - 1)%nat)) as [l1 [l2 [E L1]]];
        [fold n; lia|].
      assert (L2 : (List.length l2 = n - k)%nat).
      { unfold n. rewrite E at 1. rewrite length_app. cbn. lia. }
      rewrite E in Hs. pose proof (count_above_sorted l1 l2 _ _ Hs Ha) as B.
      rewrite <- E in B. lia.
  - assert (Od : Nat.odd n = true) by (rewrite <- Nat.negb_even, Ev; reflexivity).
    apply Nat.odd_spec in Od. destruct Od as [k Ek].
    assert (Hk : ((n - 1) / 2 = k)%nat).
    { replace (n - 1)%nat with (k * 2)%nat by lia. apply Nat.div_mul. lia. }
    rewrite Hk.
    destruct (nth_split part 0%Q (n := k)) as [l1 [l2 [E L1]]]; [fold n; lia|].
    assert (L2 : (List.length l2 = k)%nat).
    { assert (n = List.length l1 + S (List.length l2))%nat
        by (unfold n; rewrite E at 1; rewrite length_app; reflexivity).
      lia. }
    rewrite E in Hs.
    pose proof (count_below_sorted l1 l2 _ _ Hs (Qle_refl _)) as B.
    pose proof (count_above_sorted l1 l2 _ _ Hs (Qle_refl _)) as A.
    rewrite <- E in A, B. split; lia.
Qed.

(** ** The earliest timestamp *)

Lemma earliest_bound (pts : list GPXTrackPoint) (t0 : Z) :
  fold_right (fun p acc => earlier (time p) acc) None pts = Some t0 ->
  (exists p, In p pts /\ time p = Some t0)
  /\ (forall p t, In p pts -> time p = Some t -> t0 <= t).
Proof.
  revert t0. induction pts as [|q pts IH]; intros t0 H; [discriminate|].
  cbn [fold_right] in H.
  destruct (fold_right (fun p acc => earlier (time p) acc) None pts)
    as [m|] eqn:Em.
  - destruct (IH m eq_refl) as [[p [Hp Tp]] Hall].
    destruct (time q) as [x|] eqn:Tq; cbn [earlier] in H;
      injection H as <-.
    + split.
      * destruct (Z.min_spec x m) as [[_ ->]|[_ ->]];
          [exists q; split; [now left|exact Tq]
          |exists p; split; [now right|exact Tp]].
      * intros p' t [<-|Hin] Ht.
        -- rewrite Tq in Ht. injection Ht as <-. lia.
        -- specialize (Hall p' t Hin Ht). lia.
    + split; [exists p; split; [now right|exact Tp]|].
      intros p' t [<-|Hin] Ht; [congruence|now apply Hall with p'].
  - destruct (time q) as [x|] eqn:Tq; cbn [earlier] in H; [|discriminate].
    injection H as <-. split; [exists q; split; [now left|exact Tq]|].
    intros p' t [<-|Hin] Ht.
    + rewrite Tq in Ht. injection Ht as <-. lia.
    + exfalso. clear IH. induction pts as [|r pts IHp]; [destruct Hin|].
      cbn [fold_right] in Em.
      destruct (time r) eqn:Tr; cbn [earlier] in Em.
      * destruct (fold_right _ None pts); discriminate.
      * destruct Hin as [<-|Hin]; [congruence|now apply IHp].
Qed.
End Properties.

(** * The sample mission, run *)

Example sample_frame_phases :
  map (fun r => (Row.id r, Row.utc r, Row.phase r,
                 Row.start_phase r, Row.end_phase r)) sample_frame
  = [ (0%nat, None, s.PLANS, s.PLANS, s.PLANS);
      (0%nat, None, s.PLANS, s.PLANS, s.PLANS);
      (1%nat, Some (at_ 0 3 0 0), s.NIGHT, s.NIGHT, s.NAUTI);
      (1%nat, Some (at_ 0 11 0 0), s.NAUTI, s.NIGHT, s.NAUTI);
      (2%nat, Some (at_ 0 11 59 30), s.SHINE, s.SHINE, s.NAUTI);
      (2%nat, Some (at_ 1 22 40 0), s.NAUTI, s.SHINE, s.NAUTI) ].
Proof. reflexivity. Qed.

Example sample_timeline_first_day :
  firstn 5 (map (fun e => (Ev.phase e, Ev.direction e, Ev.datetime e)) sample_times)
  = [ (s.ASTRO, "rise", at_ 0 10 29 30);
      (s.NAUTI, "rise", at_ 0 10 59 30);
      (s.CIVIL, "rise", at_ 0 11 29 30);
      (s.SHINE, "rise", at_ 0 11 59 30);
      (s.SHINE, "rise", at_ 0 11 59 30) ].
Proof. reflexivity. Qed.

Example no_tracks_no_frame :
  fst (track_data sky_previous_rising sky_next_setting est
         (mkGPX (mkData []) richmond 0 0) None richmond)
  = inl "ValueError".
Proof. reflexivity. Qed.

(** * The timeline *)

(** C2.  The timeline [sun_events] returns is the sorted frame of the
    melted events, row for row, with the instant and the direction
    unchanged; a rising keeps its phase; a
    setting of Astronomical becomes Night, of Nautical becomes
    Astronomical, of Civil becomes Nautical and of Daytime becomes Civil.
    The relabelling has one outcome for each row, so no row is shifted
    twice. *)
Theorem C2_settings_relabelled_once
    (previous_rising next_setting : Observer -> Z)
    (start_date end_date : Z) (obs : Observer) :
  start_date <= end_date ->
  exists table melted times obs',
    fst (sun_events_loop previous_rising next_setting start_date end_date obs)
      = inr table
    /\ melt table = inr melted
    /\ sun_events previous_rising next_setting start_date end_date obs
       = (inr times, obs')
    /\ Forall2
         (fun before after =>
            Ev.datetime after = Ev.datetime before
            /\ Ev.direction after = Ev.direction before
            /\ relabeled (Ev.direction before) (Ev.phase before) (Ev.phase after))
         (sort_values melted) times
    /\ (forall d p q q', relabeled d p q -> relabeled d p q' -> q = q').
Proof.
  intros H.
  exists (sun_table previous_rising next_setting (lat obs) (lon obs)
            start_date end_date).
  eexists. eexists. eexists.
  split; [rewrite sun_events_loop_run; reflexivity|].
  split.
  { rewrite melt_sun_table.
    destruct (Z.ltb_spec end_date start_date); [lia|reflexivity]. }
  split; [apply sun_events_run; exact H|].
  split; [|apply relabeled_functional].
  apply Forall2_map_self. intros e He.
  apply raw_events_shape in He. destruct He as [Hd Hp].
  now apply relabel_relabeled.
Qed.

Lemma C2_witness :
  0 <= 1 /\
  exists table melted times obs',
    fst (sun_events_loop sky_previous_rising sky_next_setting 0 1 richmond)
      = inr table
    /\ melt table = inr melted
    /\ sun_events sky_previous_rising sky_next_setting 0 1 richmond
       = (inr times, obs')
    /\ Forall2
         (fun before after =>
            Ev.datetime after = Ev.datetime before
            /\ Ev.direction after = Ev.direction before
            /\ relabeled (Ev.direction before) (Ev.phase before) (Ev.phase after))
         (sort_values melted) times
    /\ (forall d p q q', relabeled d p q -> relabeled d p q' -> q = q').
Proof.
  split; [lia|].
  apply (C2_settings_relabelled_once sky_previous_rising sky_next_setting
           0 1 richmond).
  lia.
Defined.



(** C6, as the code has it.  For each day from [start_date] to [end_date]
    inclusive and each of the four horizons, the ephemeris is asked for the
    previous rising and the next setting with the observer's clock at 12:00
    of that day on the UTC scale (date [d], time of day 12:00) and with the
    horizon set to that angle; no time zone enters. *)
Theorem C6_clock_at_noon_utc
    (previous_rising next_setting : Observer -> Z)
    (start_date end_date : Z) (obs : Observer) :
  fst (sun_events_loop previous_rising next_setting start_date end_date obs)
  = inr (flat_map
           (fun d =>
              map (fun ph_hz =>
                     let o := mkObserver (lat obs) (lon obs) (noon d) (snd ph_hz) in
                     Sun.mk (fst ph_hz) (previous_rising o) (next_setting o))
                  phases)
           (mission_days start_date end_date))
  /\ (forall d, In d (mission_days start_date end_date)
                <-> start_date <= d <= end_date)
  /\ (forall d, date_of (noon d) = d /\ time_of_day (noon d) = time_of 12 0)
  /\ map snd phases
     = [s.ASTRO_HORIZ; s.NAUTI_HORIZ; s.CIVIL_HORIZ; s.SHINE_HORIZ].
Proof.
  split; [rewrite sun_events_loop_run; reflexivity|].
  split; [apply mission_days_In|].
  split; [apply noon_fields|reflexivity].
Qed.

(** C6 as stated fails: after the sweep of one winter day the observer's
    clock, read in the zone of [s.TIMEZONE], shows 07:00, not 12:00. *)
Lemma C6_counterexample_local_clock :
  date (snd (sun_events_loop sky_previous_rising sky_next_setting 0 0 richmond))
    = noon 0
  /\ time_of_day (wall_clock est s.TIMEZONE (noon 0)) = time_of 7 0
  /\ time_of_day (wall_clock est s.TIMEZONE (noon 0)) <> time_of 12 0.
Proof.
  split; [reflexivity|]. split; [reflexivity|].
  vm_compute. discriminate.
Qed.

(** * The classifier *)

(** C1.  A record with a timestamp [t] at or after some breakpoint gets the
    phase of the latest breakpoint at or before [t]: the timeline splits
    around a breakpoint [b] with [b <= t], every earlier row at or before
    [b], every later row after [t], and the record carries the phase of
    [b].  The bound is closed: when a breakpoint lies exactly at [t], [b]
    lies at [t], and it is that breakpoint or the last one at that
    instant. *)
Theorem C1_phase_of_latest_breakpoint
    (previous_rising next_setting : Observer -> Z)
    (utc_offset : string -> Z -> Z)
    (self : GPX) (time : option bool) (obs obs' obs'' : Observer)
    (df : list Row.t) (times : list Ev.t) (row : Row.t) (t : Z) :
  track_data previous_rising next_setting utc_offset self time obs
    = (inr df, obs') ->
  sun_events previous_rising next_setting (start_date self) (end_date self) obs
    = (inr times, obs'') ->
  In row df ->
  Row.utc row = Some t ->
  (exists b, In b times /\ Ev.datetime b <= t) ->
  chronological times
  /\ exists l1 b l2,
       times = l1 ++ b :: l2
       /\ Ev.datetime b <= t
       /\ Forall (fun b' => Ev.datetime b' <= Ev.datetime b) l1
       /\ Forall (fun b' => t < Ev.datetime b') l2
       /\ Row.phase row = Ev.phase b
       /\ (forall b0, In b0 times -> Ev.datetime b0 = t ->
                      Ev.datetime b = t /\ (b0 = b \/ In b0 l1)).
Proof.
  intros Htd Hse Hrow Hutc Hex.
  apply track_data_inr in Htd. destruct Htd as [Hd [-> _]].
  rewrite (sun_events_run _ _ _ _ obs Hd) in Hse.
  injection Hse as <- _.
  pose proof (timeline_chronological previous_rising next_setting
                (lat obs) (lon obs) (start_date self) (end_date self)) as Hc.
  split; [exact Hc|].
  apply selected_In, labelled_phase in Hrow. rewrite Hutc in Hrow.
  unfold timeline_of in Hrow.
  destruct (last_event_before _ t Hex) as [l1 [b [l2 [E [Hb H2]]]]].
  exists l1, b, l2. rewrite E in Hc.
  pose proof (chronological_split l1 l2 b Hc) as H1.
  repeat split; auto.
  - rewrite Hrow. now apply (phase_of_split _ l1 l2).
  - rewrite E in H. apply in_app_or in H. destruct H as [H|[H|H]].
    + rewrite Forall_forall in H1. specialize (H1 b0 H). lia.
    + now subst.
    + rewrite Forall_forall in H2. specialize (H2 b0 H). lia.
  - rewrite E in H. apply in_app_or in H. destruct H as [H|[H|H]]; auto.
    rewrite Forall_forall in H2. specialize (H2 b0 H). lia.
Qed.

Lemma C1_witness :
  track_data sky_previous_rising sky_next_setting est sample None
    (observer sample) = (inr sample_frame, sample_after)
  /\ sun_events sky_previous_rising sky_next_setting
       (start_date sample) (end_date sample) (observer sample)
     = (inr sample_times, sample_after)
  /\ In sample_row_boundary sample_frame
  /\ Row.utc sample_row_boundary = Some (at_ 0 11 59 30)
  /\ (exists b, In b sample_times /\ Ev.datetime b <= at_ 0 11 59 30)
  /\ chronological sample_times
  /\ exists l1 b l2,
       sample_times = l1 ++ b :: l2
       /\ Ev.datetime b <= at_ 0 11 59 30
       /\ Forall (fun b' => Ev.datetime b' <= Ev.datetime b) l1
       /\ Forall (fun b' => at_ 0 11 59 30 < Ev.datetime b') l2
       /\ Row.phase sample_row_boundary = Ev.phase b
       /\ (forall b0, In b0 sample_times -> Ev.datetime b0 = at_ 0 11 59 30 ->
                      Ev.datetime b = at_ 0 11 59 30 /\ (b0 = b \/ In b0 l1)).
Proof.
  assert (H1 : track_data sky_previous_rising sky_next_setting est sample None
                 (observer sample) = (inr sample_frame, sample_after))
    by (vm_compute; reflexivity).
  assert (H2 : sun_events sky_previous_rising sky_next_setting
                 (start_date sample) (end_date sample) (observer sample)
               = (inr sample_times, sample_after))
    by (vm_compute; reflexivity).
  assert (H3 : In sample_row_boundary sample_frame)
    by (do 4 right; left; reflexivity).
  assert (H4 : Row.utc sample_row_boundary = Some (at_ 0 11 59 30))
    by reflexivity.
  assert (H5 : exists b, In b sample_times /\ Ev.datetime b <= at_ 0 11 59 30).
  { exists (Ev.mk s.SHINE "rise" (at_ 0 11 59 30)).
    split; [do 3 right; left; reflexivity|vm_compute; discriminate]. }
  repeat (split; [assumption|]).
  exact (C1_phase_of_latest_breakpoint sky_previous_rising sky_next_setting est
           sample None (observer sample) sample_after sample_after
           sample_frame sample_times sample_row_boundary (at_ 0 11 59 30)
           H1 H2 H3 H4 H5).
Defined.

(** C4, as the code has it.  A record with a timestamp earlier than every
    breakpoint of the timeline is labelled Night. *)
Theorem C4_before_first_breakpoint_is_night
    (previous_rising next_setting : Observer -> Z)
    (utc_offset : string -> Z -> Z)
    (self : GPX) (time : option bool) (obs obs' obs'' : Observer)
    (df : list Row.t) (times : list Ev.t) (row : Row.t) (t : Z) :
  track_data previous_rising next_setting utc_offset self time obs
    = (inr df, obs') ->
  sun_events previous_rising next_setting (start_date self) (end_date self) obs
    = (inr times, obs'') ->
  In row df ->
  Row.utc row = Some t ->
  (forall b, In b times -> t < Ev.datetime b) ->
  Row.phase row = s.NIGHT.
Proof.
  intros Htd Hse Hrow Hutc Hall.
  apply track_data_inr in Htd. destruct Htd as [Hd [-> _]].
  rewrite (sun_events_run _ _ _ _ obs Hd) in Hse.
  injection Hse as <- _.
  apply selected_In, labelled_phase in Hrow. rewrite Hutc in Hrow.
  rewrite Hrow. apply phase_of_before, Forall_forall. exact Hall.
Qed.

Lemma sample_night_precedes b : In b sample_times -> at_ 0 3 0 0 < Ev.datetime b.
Proof.
  intros H.
  assert (F : Forall (fun b => at_ 0 3 0 0 < Ev.datetime b) sample_times)
    by (repeat constructor).
  rewrite Forall_forall in F. now apply F.
Qed.

Lemma C4_witness :
  track_data sky_previous_rising sky_next_setting est sample None
    (observer sample) = (inr sample_frame, sample_after)
  /\ sun_events sky_previous_rising sky_next_setting
       (start_date sample) (end_date sample) (observer sample)
     = (inr sample_times, sample_after)
  /\ In sample_row_night sample_frame
  /\ Row.utc sample_row_night = Some (at_ 0 3 0 0)
  /\ (forall b, In b sample_times -> at_ 0 3 0 0 < Ev.datetime b)
  /\ Row.phase sample_row_night = s.NIGHT.
Proof.
  assert (H1 : track_data sky_previous_rising sky_next_setting est sample None
                 (observer sample) = (inr sample_frame, sample_after))
    by (vm_compute; reflexivity).
  assert (H2 : sun_events sky_previous_rising sky_next_setting
                 (start_date sample) (end_date sample) (observer sample)
               = (inr sample_times, sample_after))
    by (vm_compute; reflexivity).
  assert (H3 : In sample_row_night sample_frame)
    by (do 2 right; left; reflexivity).
  assert (H4 : Row.utc sample_row_night = Some (at_ 0 3 0 0))
    by reflexivity.
  repeat (split; [assumption|]).
  split; [exact sample_night_precedes|].
  exact (C4_before_first_breakpoint_is_night
           sky_previous_rising sky_next_setting est
           sample None (observer sample) sample_after sample_after
           sample_frame sample_times sample_row_night (at_ 0 3 0 0)
           H1 H2 H3 H4 sample_night_precedes).
Defined.

(** C4 as stated fails: the first record of the night leg of the sample
    mission is timestamped before every breakpoint and is labelled Night,
    not Planning. *)
Lemma C4_counterexample_night_not_planning :
  track_data sky_previous_rising sky_next_setting est sample None
    (observer sample) = (inr sample_frame, sample_after)
  /\ sun_events sky_previous_rising sky_next_setting
       (start_date sample) (end_date sample) (observer sample)
     = (inr sample_times, sample_after)
  /\ In sample_row_night sample_frame
  /\ Row.utc sample_row_night = Some (at_ 0 3 0 0)
  /\ forallb (fun b => at_ 0 3 0 0 <? Ev.datetime b) sample_times = true
  /\ Row.phase sample_row_night = s.NIGHT
  /\ Row.phase sample_row_night <> s.PLANS.
Proof.
  split; [vm_compute; reflexivity|].
  split; [vm_compute; reflexivity|].
  split; [do 2 right; left; reflexivity|].
  split; [reflexivity|].
  split; [vm_compute; reflexivity|].
  split; [reflexivity|vm_compute; discriminate].
Qed.

(** C10.  In the returned frame a record is labelled Planning exactly when
    its timestamp is missing; a timestamped record earlier than every
    breakpoint is labelled Night. *)
Theorem C10_planning_iff_no_timestamp
    (previous_rising next_setting : Observer -> Z)
    (utc_offset : string -> Z -> Z)
    (self : GPX) (time : option bool) (obs obs' : Observer)
    (df : list Row.t) (row : Row.t) :
  track_data previous_rising next_setting utc_offset self time obs
    = (inr df, obs') ->
  In row df ->
  (Row.phase row = s.PLANS <-> Row.utc row = None)
  /\ (forall t, Row.utc row = Some t -> Row.phase row <> s.PLANS)
  /\ (forall t,
        Row.utc row = Some t ->
        Forall (fun b => t < Ev.datetime b)
          (timeline previous_rising next_setting (lat obs) (lon obs)
             (start_date self) (end_date self)) ->
        Row.phase row = s.NIGHT).
Proof.
  intros Htd Hrow.
  apply track_data_inr in Htd. destruct Htd as [Hd [-> _]].
  apply selected_In, labelled_phase in Hrow. unfold timeline_of in Hrow.
  assert (N : forall t, Row.utc row = Some t -> Row.phase row <> s.PLANS).
  { intros t Hu. rewrite Hrow, Hu.
    destruct (phase_of_cases
                (timeline previous_rising next_setting (lat obs) (lon obs)
                   (start_date self) (end_date self)) t) as [E|[b [Hb E]]];
      rewrite E; [discriminate|].
    apply timeline_phases in Hb.
    cbn in Hb. destruct Hb as [<-|[<-|[<-|[<-|[<-|[]]]]]]; discriminate. }
  split; [|split; [exact N|]].
  - split.
    + intros Hp. destruct (Row.utc row) as [t|] eqn:Hu; [|reflexivity].
      exfalso. now apply (N t).
    + intros Hu. rewrite Hrow, Hu. apply phase_of_missing.
  - intros t Hu Hall. rewrite Hrow, Hu. now apply phase_of_before.
Qed.

Lemma C10_witness :
  track_data sky_previous_rising sky_next_setting est sample None
    (observer sample) = (inr sample_frame, sample_after)
  /\ In sample_row_night sample_frame
  /\ (Row.phase sample_row_night = s.PLANS <-> Row.utc sample_row_night = None)
  /\ (forall t, Row.utc sample_row_night = Some t ->
                Row.phase sample_row_night <> s.PLANS)
  /\ (forall t,
        Row.utc sample_row_night = Some t ->
        Forall (fun b => t < Ev.datetime b)
          (timeline sky_previous_rising sky_next_setting
             (lat (observer sample)) (lon (observer sample))
             (start_date sample) (end_date sample)) ->
        Row.phase sample_row_night = s.NIGHT).
Proof.
  assert (H1 : track_data sky_previous_rising sky_next_setting est sample None
                 (observer sample) = (inr sample_frame, sample_after))
    by (vm_compute; reflexivity).
  assert (H2 : In sample_row_night sample_frame)
    by (do 2 right; left; reflexivity).
  repeat (split; [assumption|]).
  exact (C10_planning_iff_no_timestamp
           sky_previous_rising sky_next_setting est
           sample None (observer sample) sample_after
           sample_frame sample_row_night H1 H2).
Defined.

(** * The returned frame *)

(** C8.  When [track_data(time=None)] returns a frame, the calls with
    [time=True] and [time=False] that follow on the same object return
    frames too, and for every track the rows of the first frame are those
    of the other two taken together: the counts add up, and every row is
    in exactly one of the two. *)
Theorem C8_timestamp_partition
    (previous_rising next_setting : Observer -> Z)
    (utc_offset : string -> Z -> Z)
    (self : GPX) (obs obs1 : Observer) (all : list Row.t) :
  track_data previous_rising next_setting utc_offset self None obs
    = (inr all, obs1) ->
  exists timed untimed obs2 obs3,
    track_data previous_rising next_setting utc_offset self (Some true) obs1
      = (inr timed, obs2)
    /\ track_data previous_rising next_setting utc_offset self (Some false) obs2
       = (inr untimed, obs3)
    /\ (forall T : nat,
          let of_track := filter (fun r => Nat.eqb (Row.id r) T) in
          Permutation (of_track all) (of_track timed ++ of_track untimed)
          /\ List.length (of_track all)
             = (List.length (of_track timed) + List.length (of_track untimed))%nat)
    /\ (forall row, In row all ->
          (In row timed /\ ~ In row untimed)
          \/ (In row untimed /\ ~ In row timed))
    /\ (forall row, In row timed \/ In row untimed -> In row all).
Proof.
  intros H.
  pose proof (track_data_inr _ _ _ _ _ _ _ _ H) as [Hd [-> ->]].
  set (after := swept (mission_days (start_date self) (end_date self)) obs).
  assert (E1 : lat after = lat obs) by apply swept_lat.
  assert (E2 : lon after = lon obs) by apply swept_lon.
  exists (selected (Some true) (labelled previous_rising next_setting utc_offset self obs)),
         (selected (Some false) (labelled previous_rising next_setting utc_offset self obs)),
         after, after.
  split; [exact (track_data_again _ _ _ _ _ _ _ _ _ _ H E1 E2)|].
  split; [exact (track_data_again _ _ _ _ _ _ _ _ _ _ H E1 E2)|].
  cbn [selected].
  set (L := labelled previous_rising next_setting utc_offset self obs).
  assert (P : forall T,
             Permutation (filter (fun r => Nat.eqb (Row.id r) T) L)
               (filter (fun r => Nat.eqb (Row.id r) T)
                  (filter (fun r => negb (isnull (Row.utc r))) L)
                ++ filter (fun r => Nat.eqb (Row.id r) T)
                     (filter (fun r => isnull (Row.utc r)) L))).
  { intros T. apply filter_partition. intros x. now rewrite negb_involutive. }
  split; [|split].
  - intros T. cbv zeta. split; [apply P|].
    rewrite (Permutation_length (P T)). apply length_app.
  - intros row Hrow. rewrite !filter_In.
    destruct (isnull (Row.utc row)); cbn [negb]; [right|left];
      (split; [tauto|intros [_ ?]; discriminate]).
  - intros row. rewrite !filter_In. tauto.
Qed.

Lemma C8_witness :
  track_data sky_previous_rising sky_next_setting est sample None
    (observer sample) = (inr sample_frame, sample_after)
  /\ exists timed untimed obs2 obs3,
       track_data sky_previous_rising sky_next_setting est sample (Some true)
         sample_after = (inr timed, obs2)
       /\ track_data sky_previous_rising sky_next_setting est sample (Some false)
            obs2 = (inr untimed, obs3)
       /\ (forall T : nat,
             let of_track := filter (fun r => Nat.eqb (Row.id r) T) in
             Permutation (of_track sample_frame)
               (of_track timed ++ of_track untimed)
             /\ List.length (of_track sample_frame)
                = (List.length (of_track timed)
                   + List.length (of_track untimed))%nat)
       /\ (forall row, In row sample_frame ->
             (In row timed /\ ~ In row untimed)
             \/ (In row untimed /\ ~ In row timed))
       /\ (forall row, In row timed \/ In row untimed -> In row sample_frame).
Proof.
  assert (H1 : track_data sky_previous_rising sky_next_setting est sample None
                 (observer sample) = (inr sample_frame, sample_after))
    by (vm_compute; reflexivity).
  split; [exact H1|].
  exact (C8_timestamp_partition sky_previous_rising sky_next_setting est
           sample (observer sample) sample_after sample_frame H1).
Defined.

(** C9.  For a mission with a timestamped point and dates in order,
    [track_data()] returns a frame whose rows are the input records, all of
    them and in their order; the rows of one track start with a first row,
    and every row of the track carries the phase of that first row as
    start_phase and the phase of the track's last row as end_phase. *)
Theorem C9_track_summary_from_first_and_last
    (previous_rising next_setting : Observer -> Z)
    (utc_offset : string -> Z -> Z)
    (self : GPX) (obs : Observer) :
  start_date self <= end_date self ->
  (exists p, In p (parsed self) /\ Pt.utc p <> None) ->
  exists df obs',
    track_data previous_rising next_setting utc_offset self None obs
      = (inr df, obs')
    /\ map (fun row => Rec.pt (Row.rec row)) df = parsed self
    /\ (forall row, In row df ->
          exists first rest,
            filter (fun r => Nat.eqb (Row.id r) (Row.id row)) df = first :: rest
            /\ Row.start_phase row = Row.phase first
            /\ Row.end_phase row = Row.phase (List.last rest first))
    /\ (forall row row', In row df -> In row' df ->
          Row.id row = Row.id row' ->
          Row.start_phase row = Row.start_phase row'
          /\ Row.end_phase row = Row.end_phase row').
Proof.
  intros Hd Hp. eexists. eexists.
  split; [apply track_data_succeeds; assumption|].
  cbn [selected].
  split; [apply labelled_records|].
  split; [apply labelled_summary|].
  intros row row' Hr Hr' E.
  destruct (labelled_summary _ _ _ _ _ _ Hr) as [f [l [F [S1 S2]]]].
  destruct (labelled_summary _ _ _ _ _ _ Hr') as [f' [l' [F' [S1' S2']]]].
  rewrite E, F' in F. injection F as -> ->.
  now rewrite S1, S2, S1', S2'.
Qed.

Lemma C9_witness :
  start_date sample <= end_date sample
  /\ (exists p, In p (parsed sample) /\ Pt.utc p <> None)
  /\ exists df obs',
       track_data sky_previous_rising sky_next_setting est sample None
         (observer sample) = (inr df, obs')
       /\ map (fun row => Rec.pt (Row.rec row)) df = parsed sample
       /\ (forall row, In row df ->
             exists first rest,
               filter (fun r => Nat.eqb (Row.id r) (Row.id row)) df
                 = first :: rest
               /\ Row.start_phase row = Row.phase first
               /\ Row.end_phase row = Row.phase (List.last rest first))
       /\ (forall row row', In row df -> In row' df ->
             Row.id row = Row.id row' ->
             Row.start_phase row = Row.start_phase row'
             /\ Row.end_phase row = Row.end_phase row').
Proof.
  assert (H1 : start_date sample <= end_date sample) by (vm_compute; discriminate).
  assert (H2 : exists p, In p (parsed sample) /\ Pt.utc p <> None).
  { exists (Pt.mk (751 # 20) (-774 # 10) (Some (at_ 0 3 0 0)) 1
                  (Some "RVA to RIC") (Some "night leg")).
    split; [do 2 right; left; reflexivity|discriminate]. }
  split; [exact H1|]. split; [exact H2|].
  exact (C9_track_summary_from_first_and_last
           sky_previous_rising sky_next_setting est sample (observer sample)
           H1 H2).
Defined.

(** * The observer *)

(** C5.  For a mission whose points carry a timestamp, [_observer_init]
    returns an observer whose latitude is the median of the latitudes of
    all track points, whose longitude is the median of their longitudes,
    each taken on its own column, and whose date is the start of the
    parser's time bounds, the earliest timestamp of the mission. *)
Theorem C5_observer_at_coordinate_medians
    (get_time_bounds : GPXData -> TimeBounds) (g : GPXData) (t0 : Z) :
  start_time (get_time_bounds g) = earliest_timestamp g ->
  earliest_timestamp g = Some t0 ->
  exists obs,
    _observer_init get_time_bounds g = inr obs
    /\ lat obs = column_median (map latitude (walk g))
    /\ lon obs = column_median (map longitude (walk g))
    /\ is_median (lat obs) (map latitude (walk g))
    /\ is_median (lon obs) (map longitude (walk g))
    /\ date obs = t0
    /\ (exists p, In p (walk g) /\ time p = Some t0)
    /\ (forall p t, In p (walk g) -> time p = Some t -> t0 <= t).
Proof.
  intros Hb Ht. rewrite Ht in Hb.
  destruct (earliest_bound (walk g) t0 Ht) as [[p0 [Hp0 Tp0]] Hmin].
  assert (Hne : walk g <> []) by (intros E; rewrite E in Hp0; destruct Hp0).
  unfold _observer_init, np_median_axis0.
  destruct (map (fun p => (latitude p, longitude p)) (walk g)) as [|pt pts] eqn:E.
  - apply map_eq_nil in E. contradiction.
  - rewrite <- E, Hb, !map_map. cbn [fst snd].
    eexists. split; [reflexivity|]. cbn [lat lon date].
    assert (N : forall (f : GPXTrackPoint -> Q), map f (walk g) <> []).
    { intros f F. apply map_eq_nil in F. contradiction. }
    split; [reflexivity|]. split; [reflexivity|].
    split; [apply column_median_is_median, N|].
    split; [apply column_median_is_median, N|].
    split; [reflexivity|].
    split; [exists p0; auto|exact Hmin].
Qed.

Lemma C5_witness :
  start_time (sample_bounds sample_data) = earliest_timestamp sample_data
  /\ earliest_timestamp sample_data = Some (at_ 0 3 0 0)
  /\ exists obs,
       _observer_init sample_bounds sample_data = inr obs
       /\ lat obs = column_median (map latitude (walk sample_data))
       /\ lon obs = column_median (map longitude (walk sample_data))
       /\ is_median (lat obs) (map latitude (walk sample_data))
       /\ is_median (lon obs) (map longitude (walk sample_data))
       /\ date obs = at_ 0 3 0 0
       /\ (exists p, In p (walk sample_data) /\ time p = Some (at_ 0 3 0 0))
       /\ (forall p t, In p (walk sample_data) -> time p = Some t ->
                       at_ 0 3 0 0 <= t).
Proof.
  assert (H1 : start_time (sample_bounds sample_data)
               = earliest_timestamp sample_data) by reflexivity.
  assert (H2 : earliest_timestamp sample_data = Some (at_ 0 3 0 0))
    by reflexivity.
  split; [exact H1|]. split; [exact H2|].
  exact (C5_observer_at_coordinate_medians sample_bounds sample_data
           (at_ 0 3 0 0) H1 H2).
Defined.

(** C7, as the code has it.  With no track point at all the observer
    cannot be initialised: the median of the empty array is a scalar, its
    unpacking raises [TypeError], and the constructor passes the error on
    to its caller. *)
Theorem C7_no_points_raises_type_error
    (get_time_bounds : GPXData -> TimeBounds) (g : GPXData) :
  walk g = [] ->
  _observer_init get_time_bounds g = inl "TypeError"
  /\ __init__ get_time_bounds g = inl "TypeError".
Proof.
  intros H.
  assert (E : _observer_init get_time_bounds g = inl "TypeError")
    by (unfold _observer_init; rewrite H; reflexivity).
  split; [exact E|]. unfold __init__. now rewrite E.
Qed.

Lemma C7_witness :
  walk (mkData []) = []
  /\ _observer_init no_bounds (mkData []) = inl "TypeError"
  /\ __init__ no_bounds (mkData []) = inl "TypeError".
Proof.
  split; [reflexivity|].
  apply (C7_no_points_raises_type_error no_bounds (mkData [])).
  reflexivity.
Defined.

(** C7 as stated fails: on a file without tracks the error raised is not
    [InsufficientDataError]. *)
Lemma C7_counterexample_other_error :
  walk (mkData []) = []
  /\ __init__ no_bounds (mkData []) = inl "TypeError"
  /\ __init__ no_bounds (mkData []) <> inl "InsufficientDataError"
  /\ _observer_init no_bounds (mkData []) <> inl "InsufficientDataError".
Proof.
  split; [reflexivity|]. split; [reflexivity|].
  split; vm_compute; discriminate.
Qed.

(** * Further lemmas *)

Section Further.
Variable previous_rising : Observer -> Z.
Variable next_setting : Observer -> Z.
Variable utc_offset : string -> Z -> Z.

Local Abbreviation timeline := (timeline previous_rising next_setting).
Local Abbreviation timeline_of := (timeline_of previous_rising next_setting).
Local Abbreviation classified := (classified previous_rising next_setting utc_offset).
Local Abbreviation labelled := (labelled previous_rising next_setting utc_offset).

(** ** The concatenated frames, track by track *)

Lemma parsed_parse_from self : parsed self = parse_from 0 (tracks (_gpx_data self)).
Proof. reflexivity. Qed.

Lemma parse_from_cons a t ts :
  parse_from a (t :: ts) = _parse_track t a ++ parse_from (S a) ts.
Proof. reflexivity. Qed.

Lemma parse_track_id t i p : In p (_parse_track t i) -> Pt.id p = i.
Proof.
  unfold _parse_track. rewrite in_map_iff. now intros [q [<- _]].
Qed.

Lemma parse_from_id_range ts :
  forall a p, In p (parse_from a ts) ->
              (a <= Pt.id p < a + List.length ts)%nat.
Proof.
  induction ts as [|t ts IH]; intros a p H; [destruct H|].
  rewrite parse_from_cons in H. apply in_app_or in H. destruct H as [H|H].
  - apply parse_track_id in H. cbn [List.length]. lia.
  - apply IH in H. cbn [List.length]. lia.
Qed.

Lemma filter_all {X} (f : X -> bool) (l : list X) :
  (forall x, In x l -> f x = true) -> filter f l = l.
Proof.
  intros H. apply forallb_filter_id, forallb_forall. exact H.
Qed.

Lemma filter_nothing {X} (f : X -> bool) (l : list X) :
  (forall x, In x l -> f x = false) -> filter f l = [].
Proof.
  intros H. apply filter_none, Forall_forall. exact H.
Qed.

Lemma parse_from_filter ts :
  forall a k t,
    nth_error ts k = Some t ->
    filter (fun p => Nat.eqb (Pt.id p) (a + k)) (parse_from a ts)
    = _parse_track t (a + k).
Proof.
  induction ts as [|t0 ts IH]; intros a k t H; [destruct k; discriminate|].
  rewrite parse_from_cons, filter_app.
  destruct k as [|k]; cbn [nth_error] in H.
  - injection H as ->. rewrite Nat.add_0_r.
    rewrite filter_all, filter_nothing; [apply app_nil_r| |].
    + intros p Hp. apply parse_from_id_range in Hp.
      apply Nat.eqb_neq. lia.
    + intros p Hp. apply parse_track_id in Hp. now apply Nat.eqb_eq.
  - rewrite filter_nothing.
    + cbn [app]. replace (a + S k)%nat with (S a + k)%nat by lia.
      now apply IH.
    + intros p Hp. apply parse_track_id in Hp. apply Nat.eqb_neq. lia.
Qed.

Lemma parse_from_points ts :
  forall a,
    map (fun p => (Pt.latitude p, Pt.longitude p, Pt.utc p)) (parse_from a ts)
    = map (fun p => (latitude p, longitude p, time p))
          (flat_map (fun track => flat_map points (segments track)) ts).
Proof.
  induction ts as [|t ts IH]; intros a; [reflexivity|].
  rewrite parse_from_cons. cbn [flat_map]. rewrite !map_app, IH.
  f_equal. unfold _parse_track. now rewrite map_map.
Qed.

Lemma parse_from_ascending ts :
  forall a, StronglySorted le (map Pt.id (parse_from a ts)).
Proof.
  induction ts as [|t ts IH]; intros a; [constructor|].
  rewrite parse_from_cons, map_app.
  assert (G : forall l, (forall p, In p l -> Pt.id p = a) ->
                        StronglySorted le
                          (map Pt.id l ++ map Pt.id (parse_from (S a) ts))).
  { induction l as [|p l IHl]; intros Hl; [apply IH|].
    cbn [map app]. constructor.
    - apply IHl. intros q Hq. apply Hl. now right.
    - apply Forall_forall. intros x Hx. rewrite (Hl p (or_introl eq_refl)).
      apply in_app_or in Hx. destruct Hx as [Hx|Hx];
        apply in_map_iff in Hx; destruct Hx as [q [<- Hq]].
      + rewrite (Hl q (or_intror Hq)). lia.
      + apply parse_from_id_range in Hq. lia. }
  apply G. intros p. apply parse_track_id.
Qed.

(** ** The rows of the frame, column by column *)

Lemma labelled_row self obs row :
  In row (labelled self obs) ->
  exists p,
    In p (parsed self)
    /\ Row.rec row
       = Rec.set_phase (expand_columns utc_offset p)
           (phase_of (timeline_of self obs) (Pt.utc p)).
Proof.
  unfold labelled. rewrite in_map_iff. intros [r [<- Hr]].
  unfold classified in Hr. rewrite assign_phase_rows in Hr.
  apply in_map_iff in Hr. destruct Hr as [r0 [<- Hr0]].
  apply in_map_iff in Hr0. destruct Hr0 as [p [<- Hp]].
  exists p. split; [exact Hp|reflexivity].
Qed.

Lemma labelled_ids self obs k :
  map (fun row => Rec.pt (Row.rec row))
      (filter (fun r => Nat.eqb (Row.id r) k) (labelled self obs))
  = filter (fun p => Nat.eqb (Pt.id p) k) (parsed self).
Proof.
  rewrite <- (labelled_records previous_rising next_setting utc_offset self obs).
  now rewrite filter_map_swap.
Qed.

Lemma split_day (t : Z) :
  datetime_combine (date_of t) 0 + time_of_day t = t
  /\ 0 <= time_of_day t < us_per_day
  /\ datetime_combine (date_of t) 0 mod us_per_day = 0.
Proof.
  unfold datetime_combine, date_of, time_of_day.
  assert (P : 0 < us_per_day) by reflexivity.
  split; [|split].
  - pose proof (Z.div_mod t us_per_day). lia.
  - apply Z.mod_pos_bound, P.
  - rewrite Z.add_0_r. apply Z.mod_mul. lia.
Qed.

(** ** The scan between two breakpoints *)

Lemma phase_of_same_side (events : list Ev.t) (t1 t2 : Z) :
  (forall b, In b events -> (Ev.datetime b <= t1 <-> Ev.datetime b <= t2)) ->
  phase_of events (Some t1) = phase_of events (Some t2).
Proof.
  unfold phase_of. cbn [isnull]. generalize s.NIGHT.
  induction events as [|b l IH]; intros ph H; [reflexivity|].
  cbn [fold_left ge_datetime].
  assert (E : (Ev.datetime b <=? t1) = (Ev.datetime b <=? t2)).
  { pose proof (H b (or_introl eq_refl)) as Hb.
    destruct (Z.leb_spec (Ev.datetime b) t1), (Z.leb_spec (Ev.datetime b) t2);
      try reflexivity; lia. }
  rewrite E. apply IH. intros b' Hb'. apply H. now right.
Qed.

(** ** The observer after the sweep *)

Lemma swept_app ds d obs :
  swept (ds ++ [d]) obs = mkObserver (lat obs) (lon obs) (noon d) s.SHINE_HORIZ.
Proof.
  unfold swept. rewrite fold_left_app. cbn [fold_left].
  fold (swept ds obs). now rewrite swept_lat, swept_lon.
Qed.

Lemma mission_days_last start_date end_date :
  start_date <= end_date ->
  exists ds, mission_days start_date end_date = ds ++ [end_date].
Proof.
  intros H. unfold mission_days, range.
  replace (Z.to_nat (end_date - start_date + 1))
    with (S (Z.to_nat (end_date - start_date))) by lia.
  rewrite seq_S, !map_app. cbn [map Nat.add].
  eexists. f_equal. f_equal. lia.
Qed.

Lemma swept_mission start_date end_date obs :
  start_date <= end_date ->
  swept (mission_days start_date end_date) obs
  = mkObserver (lat obs) (lon obs) (noon end_date) s.SHINE_HORIZ.
Proof.
  intros H. destruct (mission_days_last _ _ H) as [ds ->]. apply swept_app.
Qed.

(** ** The median inside the column *)

Lemma column_median_bounded (col : list Q) :
  col <> [] ->
  exists a b, In a col /\ In b col /\ (a <= column_median col <= b)%Q.
Proof.
  intros Hne. unfold column_median.
  set (part := sort_by Qltb col).
  pose proof (column_sorted col) as Hs. fold part in Hs.
  assert (Hl : List.length part = List.length col) by apply sort_by_length.
  assert (Hpos : (0 < List.length col)%nat)
    by (destruct col; [congruence|cbn; lia]).
  assert (Hin : forall i, (i < List.length col)%nat -> In (nth i part 0%Q) col).
  { intros i Hi. apply (sort_by_In Qltb). apply nth_In. fold part. lia. }
  destruct (Nat.even (List.length col)) eqn:Ev.
  - apply Nat.even_spec in Ev. destruct Ev as [k Ek].
    assert (Hk : (List.length col / 2 = k)%nat)
      by (rewrite Ek, Nat.mul_comm; apply Nat.div_mul; lia).
    rewrite Hk.
    exists (nth (k - 1) part 0%Q), (nth k part 0%Q).
    split; [apply Hin; lia|]. split; [apply Hin; lia|].
    apply mean_between, sorted_nth; [exact Hs|lia].
  - assert (Hi : ((List.length col - 1) / 2 < List.length col)%nat).
    { apply Nat.Div0.div_lt_upper_bound. lia. }
    exists (nth ((List.length col - 1) / 2) part 0%Q),
           (nth ((List.length col - 1) / 2) part 0%Q).
    split; [now apply Hin|]. split; [now apply Hin|].
    split; apply Qle_refl.
Qed.

Lemma last_In {X} (l : list X) (d : X) : In (List.last l d) (d :: l).
Proof.
  revert d. induction l as [|x l IH]; intros d; [now left|].
  rewrite last_cons_default. right. apply IH.
Qed.
End Further.

(** * Further properties of the frame *)

(** X1.  In the frame of [track_data()] the column [id] is the position of
    the track in the file: every id is below the number of tracks, the rows
    with id [k] are the rows [_parse_track] makes of the [k]-th track, in
    their order, and the ids never decrease along the frame. *)
Theorem X1_rows_grouped_by_track
    (previous_rising next_setting : Observer -> Z)
    (utc_offset : string -> Z -> Z)
    (self : GPX) (obs obs' : Observer) (df : list Row.t) :
  track_data previous_rising next_setting utc_offset self None obs
    = (inr df, obs') ->
  (forall row, In row df ->
     (Row.id row < List.length (tracks (_gpx_data self)))%nat)
  /\ (forall k track,
        nth_error (tracks (_gpx_data self)) k = Some track ->
        map (fun row => Rec.pt (Row.rec row))
            (filter (fun r => Nat.eqb (Row.id r) k) df)
        = _parse_track track k)
  /\ StronglySorted le (map Row.id df).
Proof.
  intros H. apply track_data_inr in H. destruct H as [_ [-> _]].
  cbn [selected]. split; [|split].
  - intros row Hrow. apply labelled_row in Hrow.
    destruct Hrow as [p [Hp E]].
    rewrite parsed_parse_from in Hp. apply parse_from_id_range in Hp.
    unfold Row.id, Rec.id. rewrite E. cbn [Rec.pt Rec.set_phase expand_columns].
    lia.
  - intros k track Hk.
    rewrite labelled_ids, parsed_parse_from.
    exact (parse_from_filter _ 0%nat k track Hk).
  - replace (map Row.id (labelled previous_rising next_setting utc_offset self obs))
      with (map Pt.id (parsed self)).
    + rewrite parsed_parse_from. apply parse_from_ascending.
    + rewrite <- (labelled_records previous_rising next_setting utc_offset self obs).
      now rewrite map_map.
Qed.

Lemma X1_witness :
  track_data sky_previous_rising sky_next_setting est sample None
    (observer sample) = (inr sample_frame, sample_after)
  /\ (forall row, In row sample_frame ->
        (Row.id row < List.length (tracks (_gpx_data sample)))%nat)
  /\ (forall k track,
        nth_error (tracks (_gpx_data sample)) k = Some track ->
        map (fun row => Rec.pt (Row.rec row))
            (filter (fun r => Nat.eqb (Row.id r) k) sample_frame)
        = _parse_track track k)
  /\ StronglySorted le (map Row.id sample_frame).
Proof.
  assert (H1 : track_data sky_previous_rising sky_next_setting est sample None
                 (observer sample) = (inr sample_frame, sample_after))
    by (vm_compute; reflexivity).
  split; [exact H1|].
  exact (X1_rows_grouped_by_track sky_previous_rising sky_next_setting est
           sample (observer sample) sample_after sample_frame H1).
Defined.

(** X2.  The frame of [track_data()] has one row for every point [walk()]
    yields, in the same order and with the same latitude, longitude and
    timestamp: the points the observer is placed from are the rows of the
    frame. *)
Theorem X2_rows_are_the_walked_points
    (previous_rising next_setting : Observer -> Z)
    (utc_offset : string -> Z -> Z)
    (self : GPX) (obs obs' : Observer) (df : list Row.t) :
  track_data previous_rising next_setting utc_offset self None obs
    = (inr df, obs') ->
  map (fun row => (Pt.latitude (Rec.pt (Row.rec row)),
                   Pt.longitude (Rec.pt (Row.rec row)),
                   Row.utc row)) df
  = map (fun p => (latitude p, longitude p, time p)) (walk (_gpx_data self))
  /\ List.length df = List.length (walk (_gpx_data self)).
Proof.
  intros H. apply track_data_inr in H. destruct H as [_ [-> _]].
  cbn [selected].
  assert (E : map (fun row => (Pt.latitude (Rec.pt (Row.rec row)),
                               Pt.longitude (Rec.pt (Row.rec row)),
                               Row.utc row))
                  (labelled previous_rising next_setting utc_offset self obs)
              = map (fun p => (latitude p, longitude p, time p))
                    (walk (_gpx_data self))).
  { unfold walk. rewrite <- (parse_from_points _ 0%nat), <- parsed_parse_from.
    rewrite <- (labelled_records previous_rising next_setting utc_offset self obs).
    now rewrite map_map. }
  split; [exact E|].
  apply (f_equal (@List.length _)) in E. now rewrite !length_map in E.
Qed.

Lemma X2_witness :
  track_data sky_previous_rising sky_next_setting est sample None
    (observer sample) = (inr sample_frame, sample_after)
  /\ map (fun row => (Pt.latitude (Rec.pt (Row.rec row)),
                      Pt.longitude (Rec.pt (Row.rec row)),
                      Row.utc row)) sample_frame
     = map (fun p => (latitude p, longitude p, time p))
           (walk (_gpx_data sample))
  /\ List.length sample_frame = List.length (walk (_gpx_data sample)).
Proof.
  assert (H1 : track_data sky_previous_rising sky_next_setting est sample None
                 (observer sample) = (inr sample_frame, sample_after))
    by (vm_compute; reflexivity).
  split; [exact H1|].
  exact (X2_rows_are_the_walked_points sky_previous_rising sky_next_setting est
           sample (observer sample) sample_after sample_frame H1).
Defined.

(** X3.  The time columns of a row.  Without a timestamp the five of them
    are missing.  With a timestamp [t], [utc_date] is a midnight and
    [utc_time] a time of day that add up to [t]; [local] is the instant
    [t] itself; [date] and [time] are a midnight and a time of day that
    add up to [t] moved by the offset of the configured zone. *)
Theorem X3_time_columns_split_the_timestamp
    (previous_rising next_setting : Observer -> Z)
    (utc_offset : string -> Z -> Z)
    (self : GPX) (time : option bool) (obs obs' : Observer)
    (df : list Row.t) (row : Row.t) :
  track_data previous_rising next_setting utc_offset self time obs
    = (inr df, obs') ->
  In row df ->
  match Row.utc row with
  | None =>
      Rec.utc_date (Row.rec row) = None
      /\ Rec.utc_time (Row.rec row) = None
      /\ Rec.local (Row.rec row) = None
      /\ Rec.date (Row.rec row) = None
      /\ Rec.time (Row.rec row) = None
  | Some t =>
      exists d tod ld ltod,
        Rec.utc_date (Row.rec row) = Some d
        /\ Rec.utc_time (Row.rec row) = Some tod
        /\ d + tod = t
        /\ d mod us_per_day = 0
        /\ 0 <= tod < us_per_day
        /\ Rec.local (Row.rec row) = Some t
        /\ Rec.date (Row.rec row) = Some ld
        /\ Rec.time (Row.rec row) = Some ltod
        /\ ld + ltod = t + utc_offset s.TIMEZONE t
        /\ ld mod us_per_day = 0
        /\ 0 <= ltod < us_per_day
  end.
Proof.
  intros H Hrow. apply track_data_inr in H. destruct H as [_ [-> _]].
  apply selected_In, labelled_row in Hrow. destruct Hrow as [p [_ E]].
  unfold Row.utc, Rec.utc. rewrite E.
  cbn [Rec.pt Rec.set_phase expand_columns Rec.utc_date Rec.utc_time
       Rec.local Rec.date Rec.time].
  destruct (Pt.utc p) as [t|]; cbn [option_map]; [|repeat split].
  destruct (split_day t) as [A [B C]].
  destruct (split_day (wall_clock utc_offset s.TIMEZONE t)) as [A' [B' C']].
  do 4 eexists. repeat split; try reflexivity; try assumption; lia.
Qed.

Lemma X3_witness :
  track_data sky_previous_rising sky_next_setting est sample None
    (observer sample) = (inr sample_frame, sample_after)
  /\ In sample_row_boundary sample_frame
  /\ match Row.utc sample_row_boundary with
     | None =>
         Rec.utc_date (Row.rec sample_row_boundary) = None
         /\ Rec.utc_time (Row.rec sample_row_boundary) = None
         /\ Rec.local (Row.rec sample_row_boundary) = None
         /\ Rec.date (Row.rec sample_row_boundary) = None
         /\ Rec.time (Row.rec sample_row_boundary) = None
     | Some t =>
         exists d tod ld ltod,
           Rec.utc_date (Row.rec sample_row_boundary) = Some d
           /\ Rec.utc_time (Row.rec sample_row_boundary) = Some tod
           /\ d + tod = t
           /\ d mod us_per_day = 0
           /\ 0 <= tod < us_per_day
           /\ Rec.local (Row.rec sample_row_boundary) = Some t
           /\ Rec.date (Row.rec sample_row_boundary) = Some ld
           /\ Rec.time (Row.rec sample_row_boundary) = Some ltod
           /\ ld + ltod = t + est s.TIMEZONE t
           /\ ld mod us_per_day = 0
           /\ 0 <= ltod < us_per_day
     end.
Proof.
  assert (H1 : track_data sky_previous_rising sky_next_setting est sample None
                 (observer sample) = (inr sample_frame, sample_after))
    by (vm_compute; reflexivity).
  assert (H2 : In sample_row_boundary sample_frame)
    by (do 4 right; left; reflexivity).
  split; [exact H1|]. split; [exact H2|].
  exact (X3_time_columns_split_the_timestamp
           sky_previous_rising sky_next_setting est
           sample None (observer sample) sample_after
           sample_frame sample_row_boundary H1 H2).
Defined.

(** X4.  Every value of the columns [phase], [start_phase] and [end_phase]
    of a returned frame is one of the six labels of the settings. *)
Theorem X4_phases_are_configured_labels
    (previous_rising next_setting : Observer -> Z)
    (utc_offset : string -> Z -> Z)
    (self : GPX) (time : option bool) (obs obs' : Observer)
    (df : list Row.t) (row : Row.t) :
  track_data previous_rising next_setting utc_offset self time obs
    = (inr df, obs') ->
  In row df ->
  In (Row.phase row) labels
  /\ In (Row.start_phase row) labels
  /\ In (Row.end_phase row) labels.
Proof.
  intros H Hrow. apply track_data_inr in H. destruct H as [_ [-> _]].
  apply selected_In in Hrow.
  assert (P : forall r,
             In r (labelled previous_rising next_setting utc_offset self obs) ->
             In (Row.phase r) labels).
  { intros r Hr. rewrite (labelled_phase _ _ _ _ _ _ Hr).
    destruct (Row.utc r) as [t|].
    - destruct (phase_of_cases
                  (timeline_of previous_rising next_setting self obs) t)
        as [->|[b [Hb ->]]]; [cbn; tauto|].
      apply timeline_phases in Hb. now right.
    - rewrite phase_of_missing. now left. }
  split; [now apply P|].
  destruct (labelled_summary _ _ _ _ _ _ Hrow) as [f [l [F [-> ->]]]].
  assert (S : forall r, In r (f :: l) ->
                        In r (labelled previous_rising next_setting
                                utc_offset self obs)).
  { intros r Hr. rewrite <- F in Hr. apply filter_In in Hr. tauto. }
  split; apply P, S; [now left|apply last_In].
Qed.

Lemma X4_witness :
  track_data sky_previous_rising sky_next_setting est sample None
    (observer sample) = (inr sample_frame, sample_after)
  /\ In sample_row_boundary sample_frame
  /\ In (Row.phase sample_row_boundary) labels
  /\ In (Row.start_phase sample_row_boundary) labels
  /\ In (Row.end_phase sample_row_boundary) labels.
Proof.
  assert (H1 : track_data sky_previous_rising sky_next_setting est sample None
                 (observer sample) = (inr sample_frame, sample_after))
    by (vm_compute; reflexivity).
  assert (H2 : In sample_row_boundary sample_frame)
    by (do 4 right; left; reflexivity).
  split; [exact H1|]. split; [exact H2|].
  exact (X4_phases_are_configured_labels
           sky_previous_rising sky_next_setting est
           sample None (observer sample) sample_after
           sample_frame sample_row_boundary H1 H2).
Defined.

(** X5.  The phase changes only at breakpoints: two timestamped rows of a
    frame with no breakpoint after the one and at or before the other
    carry the same phase. *)
Theorem X5_same_phase_between_breakpoints
    (previous_rising next_setting : Observer -> Z)
    (utc_offset : string -> Z -> Z)
    (self : GPX) (time : option bool) (obs obs' obs'' : Observer)
    (df : list Row.t) (times : list Ev.t) (r1 r2 : Row.t) (t1 t2 : Z) :
  track_data previous_rising next_setting utc_offset self time obs
    = (inr df, obs') ->
  sun_events previous_rising next_setting (start_date self) (end_date self) obs
    = (inr times, obs'') ->
  In r1 df -> In r2 df ->
  Row.utc r1 = Some t1 -> Row.utc r2 = Some t2 ->
  (forall b, In b times -> (Ev.datetime b <= t1 <-> Ev.datetime b <= t2)) ->
  Row.phase r1 = Row.phase r2.
Proof.
  intros Htd Hse H1 H2 U1 U2 Hb.
  apply track_data_inr in Htd. destruct Htd as [Hd [-> _]].
  rewrite (sun_events_run _ _ _ _ obs Hd) in Hse. injection Hse as <- _.
  apply selected_In, labelled_phase in H1, H2.
  rewrite H1, H2, U1, U2. now apply phase_of_same_side.
Qed.

Lemma afternoon_no_breakpoint b :
  In b afternoon_times ->
  (Ev.datetime b <= at_ 0 20 0 0 <-> Ev.datetime b <= at_ 0 21 0 0).
Proof.
  intros H.
  assert (F : Forall (fun b => Ev.datetime b <= at_ 0 20 0 0
                               <-> Ev.datetime b <= at_ 0 21 0 0)
                afternoon_times).
  { repeat constructor; cbn [Ev.datetime];
      unfold at_, datetime_combine, time_of, us_per_day, us_per_second; lia. }
  rewrite Forall_forall in F. now apply F.
Qed.

Lemma X5_witness :
  track_data sky_previous_rising sky_next_setting est afternoon None
    (observer afternoon) = (inr afternoon_frame, afternoon_after)
  /\ sun_events sky_previous_rising sky_next_setting
       (start_date afternoon) (end_date afternoon) (observer afternoon)
     = (inr afternoon_times, afternoon_after)
  /\ In afternoon_row_first afternoon_frame
  /\ In afternoon_row_second afternoon_frame
  /\ Row.utc afternoon_row_first = Some (at_ 0 20 0 0)
  /\ Row.utc afternoon_row_second = Some (at_ 0 21 0 0)
  /\ (forall b, In b afternoon_times ->
        (Ev.datetime b <= at_ 0 20 0 0 <-> Ev.datetime b <= at_ 0 21 0 0))
  /\ Row.phase afternoon_row_first = Row.phase afternoon_row_second.
Proof.
  assert (H1 : track_data sky_previous_rising sky_next_setting est afternoon None
                 (observer afternoon) = (inr afternoon_frame, afternoon_after))
    by (vm_compute; reflexivity).
  assert (H2 : sun_events sky_previous_rising sky_next_setting
                 (start_date afternoon) (end_date afternoon) (observer afternoon)
               = (inr afternoon_times, afternoon_after))
    by (vm_compute; reflexivity).
  assert (H3 : In afternoon_row_first afternoon_frame) by (left; reflexivity).
  assert (H4 : In afternoon_row_second afternoon_frame)
    by (right; left; reflexivity).
  assert (H5 : Row.utc afternoon_row_first = Some (at_ 0 20 0 0)) by reflexivity.
  assert (H6 : Row.utc afternoon_row_second = Some (at_ 0 21 0 0)) by reflexivity.
  repeat (split; [assumption|]).
  split; [exact afternoon_no_breakpoint|].
  exact (X5_same_phase_between_breakpoints
           sky_previous_rising sky_next_setting est
           afternoon None (observer afternoon) afternoon_after afternoon_after
           afternoon_frame afternoon_times
           afternoon_row_first afternoon_row_second
           (at_ 0 20 0 0) (at_ 0 21 0 0)
           H1 H2 H3 H4 H5 H6 afternoon_no_breakpoint).
Defined.

(** X6.  A track none of whose points has a timestamp reports Planning as
    start_phase and as end_phase on every one of its rows. *)
Theorem X6_track_without_timestamps_is_planning
    (previous_rising next_setting : Observer -> Z)
    (utc_offset : string -> Z -> Z)
    (self : GPX) (obs obs' : Observer) (df : list Row.t) (row : Row.t) :
  track_data previous_rising next_setting utc_offset self None obs
    = (inr df, obs') ->
  In row df ->
  (forall r, In r df -> Row.id r = Row.id row -> Row.utc r = None) ->
  Row.phase row = s.PLANS
  /\ Row.start_phase row = s.PLANS
  /\ Row.end_phase row = s.PLANS.
Proof.
  intros H Hrow Hall. apply track_data_inr in H. destruct H as [_ [-> _]].
  cbn [selected] in *.
  assert (P : forall r,
             In r (labelled previous_rising next_setting utc_offset self obs) ->
             Row.id r = Row.id row -> Row.phase r = s.PLANS).
  { intros r Hr Hid. rewrite (labelled_phase _ _ _ _ _ _ Hr).
    rewrite (Hall r Hr Hid). apply phase_of_missing. }
  split; [now apply P|].
  destruct (labelled_summary _ _ _ _ _ _ Hrow) as [f [l [F [-> ->]]]].
  assert (S : forall r, In r (f :: l) ->
                        In r (labelled previous_rising next_setting
                                utc_offset self obs)
                        /\ Row.id r = Row.id row).
  { intros r Hr. rewrite <- F in Hr. apply filter_In in Hr.
    destruct Hr as [Hr Hid]. split; [exact Hr|now apply Nat.eqb_eq]. }
  split; apply P; apply S; (now left) || apply last_In.
Qed.

Lemma sample_first_leg_untimed r :
  In r sample_frame -> Row.id r = Row.id sample_row_untimed -> Row.utc r = None.
Proof.
  intros [<-|[<-|[<-|[<-|[<-|[<-|[]]]]]]] E; try reflexivity; discriminate E.
Qed.

Lemma X6_witness :
  track_data sky_previous_rising sky_next_setting est sample None
    (observer sample) = (inr sample_frame, sample_after)
  /\ In sample_row_untimed sample_frame
  /\ (forall r, In r sample_frame -> Row.id r = Row.id sample_row_untimed ->
                Row.utc r = None)
  /\ Row.phase sample_row_untimed = s.PLANS
  /\ Row.start_phase sample_row_untimed = s.PLANS
  /\ Row.end_phase sample_row_untimed = s.PLANS.
Proof.
  assert (H1 : track_data sky_previous_rising sky_next_setting est sample None
                 (observer sample) = (inr sample_frame, sample_after))
    by (vm_compute; reflexivity).
  assert (H2 : In sample_row_untimed sample_frame) by (left; reflexivity).
  split; [exact H1|]. split; [exact H2|].
  split; [exact sample_first_leg_untimed|].
  exact (X6_track_without_timestamps_is_planning
           sky_previous_rising sky_next_setting est
           sample (observer sample) sample_after sample_frame
           sample_row_untimed H1 H2 sample_first_leg_untimed).
Defined.

(** X7.  Rows of one selection.  Every row of [track_data(time=True)] has
    a timestamp and a phase other than Planning; every row of
    [track_data(time=False)] has no timestamp and the phase Planning. *)
Theorem X7_selection_by_timestamp
    (previous_rising next_setting : Observer -> Z)
    (utc_offset : string -> Z -> Z)
    (self : GPX) (wanted : bool) (obs obs' : Observer)
    (df : list Row.t) (row : Row.t) :
  track_data previous_rising next_setting utc_offset self (Some wanted) obs
    = (inr df, obs') ->
  In row df ->
  if wanted
  then Row.utc row <> None /\ Row.phase row <> s.PLANS
  else Row.utc row = None /\ Row.phase row = s.PLANS.
Proof.
  intros H Hrow. apply track_data_inr in H. destruct H as [_ [-> _]].
  assert (L : In row (labelled previous_rising next_setting utc_offset self obs))
    by (now apply selected_In in Hrow).
  pose proof (labelled_phase _ _ _ _ _ _ L) as P.
  destruct wanted; cbn [selected] in Hrow; apply filter_In in Hrow;
    destruct Hrow as [_ Hu].
  - destruct (Row.utc row) as [t|] eqn:U; [|discriminate Hu].
    split; [discriminate|]. rewrite P.
    destruct (phase_of_cases
                (timeline_of previous_rising next_setting self obs) t)
      as [->|[b [Hb ->]]]; [discriminate|].
    apply timeline_phases in Hb. cbn in Hb.
    destruct Hb as [<-|[<-|[<-|[<-|[<-|[]]]]]]; discriminate.
  - destruct (Row.utc row) as [t|] eqn:U; [discriminate Hu|].
    split; [reflexivity|]. rewrite P. apply phase_of_missing.
Qed.

Lemma X7_witness :
  track_data sky_previous_rising sky_next_setting est sample (Some false)
    (observer sample) = (inr sample_frame_untimed, sample_after)
  /\ In sample_row_untimed sample_frame_untimed
  /\ Row.utc sample_row_untimed = None
  /\ Row.phase sample_row_untimed = s.PLANS.
Proof.
  assert (H1 : track_data sky_previous_rising sky_next_setting est sample
                 (Some false) (observer sample)
               = (inr sample_frame_untimed, sample_after))
    by (vm_compute; reflexivity).
  assert (H2 : In sample_row_untimed sample_frame_untimed)
    by (left; reflexivity).
  split; [exact H1|]. split; [exact H2|].
  exact (X7_selection_by_timestamp
           sky_previous_rising sky_next_setting est
           sample false (observer sample) sample_after
           sample_frame_untimed sample_row_untimed H1 H2).
Defined.

(** X8.  The column [phase] is computed from the timestamps alone: phases
    a frame already carries do not matter, and classifying a classified
    frame again changes nothing. *)
Theorem X8_phase_column_recomputed
    (events : list Ev.t) (df : list Rec.t) :
  assign_phase events (assign_phase events df) = assign_phase events df
  /\ (forall ph : Rec.t -> string,
        assign_phase events (map (fun r => Rec.set_phase r (ph r)) df)
        = assign_phase events df)
  /\ map Rec.utc (assign_phase events df) = map Rec.utc df
  /\ List.length (assign_phase events df) = List.length df.
Proof.
  assert (G : forall ph : Rec.t -> string,
             assign_phase events (map (fun r => Rec.set_phase r (ph r)) df)
             = assign_phase events df).
  { intros ph. rewrite !assign_phase_rows, map_map. apply map_ext.
    intros r. reflexivity. }
  split; [|split; [exact G|split]].
  - rewrite (assign_phase_rows events df) at 1. apply G.
  - rewrite assign_phase_rows, map_map. apply map_ext. reflexivity.
  - rewrite assign_phase_rows. apply length_map.
Qed.

(** * Further properties of the timeline and of the observer *)

Lemma sun_events_inr
    (previous_rising next_setting : Observer -> Z)
    (start_date end_date : Z) (obs obs' : Observer) (times : list Ev.t) :
  sun_events previous_rising next_setting start_date end_date obs
    = (inr times, obs') ->
  start_date <= end_date
  /\ times = timeline previous_rising next_setting (lat obs) (lon obs)
               start_date end_date
  /\ obs' = mkObserver (lat obs) (lon obs) (noon end_date) s.SHINE_HORIZ.
Proof.
  intros H. destruct (Z.lt_ge_cases end_date start_date) as [L|L].
  - rewrite (sun_events_no_day _ _ _ _ obs L) in H. discriminate.
  - rewrite (sun_events_run _ _ _ _ obs L) in H. injection H as <- <-.
    split; [exact L|]. split; [reflexivity|]. now apply swept_mission.
Qed.

Lemma forallb_false_witness {X} (f : X -> bool) (l : list X) :
  forallb f l = false -> exists x, In x l /\ f x = false.
Proof.
  induction l as [|x l IH]; cbn; [discriminate|].
  destruct (f x) eqn:E; cbn.
  - intros H. destruct (IH H) as [y [Hy Fy]]. exists y. auto.
  - intros _. exists x. auto.
Qed.

(** X9.  When a read of [sun_events] returns a timeline, at least one day
    was swept and the observer is where it was, with its clock at 12:00
    UTC of the end date and its horizon at the last angle, that of
    Daytime. *)
Theorem X9_sweep_changes_clock_and_horizon_only
    (previous_rising next_setting : Observer -> Z)
    (start_date end_date : Z) (obs obs' : Observer) (times : list Ev.t) :
  sun_events previous_rising next_setting start_date end_date obs
    = (inr times, obs') ->
  start_date <= end_date
  /\ obs' = mkObserver (lat obs) (lon obs) (noon end_date) s.SHINE_HORIZ.
Proof.
  intros H. apply sun_events_inr in H. tauto.
Qed.

Lemma X9_witness :
  sun_events sky_previous_rising sky_next_setting
    (start_date sample) (end_date sample) (observer sample)
    = (inr sample_times, sample_after)
  /\ start_date sample <= end_date sample
  /\ sample_after
     = mkObserver (lat (observer sample)) (lon (observer sample))
         (noon (end_date sample)) s.SHINE_HORIZ.
Proof.
  assert (H1 : sun_events sky_previous_rising sky_next_setting
                 (start_date sample) (end_date sample) (observer sample)
               = (inr sample_times, sample_after))
    by (vm_compute; reflexivity).
  split; [exact H1|].
  exact (X9_sweep_changes_clock_and_horizon_only
           sky_previous_rising sky_next_setting
           (start_date sample) (end_date sample) (observer sample)
           sample_after sample_times H1).
Defined.

(** X10.  With the end date before the start date no day is swept: the
    frame of events is empty, [melt] finds no column [phase] in it and
    [sun_events] raises [KeyError]; the observer is left as it was. *)
Theorem X10_no_day_raises_key_error
    (previous_rising next_setting : Observer -> Z)
    (start_date end_date : Z) (obs : Observer) :
  end_date < start_date ->
  sun_events_loop previous_rising next_setting start_date end_date obs
    = (inr [], obs)
  /\ sun_events previous_rising next_setting start_date end_date obs
     = (inl "KeyError", obs).
Proof.
  intros H. split; [|now apply sun_events_no_day].
  rewrite sun_events_loop_run. unfold sun_table, mission_days, range.
  replace (Z.to_nat (end_date - start_date + 1)) with 0%nat by lia.
  reflexivity.
Qed.

Lemma X10_witness :
  0 < 1
  /\ sun_events_loop sky_previous_rising sky_next_setting 1 0 richmond
     = (inr [], richmond)
  /\ sun_events sky_previous_rising sky_next_setting 1 0 richmond
     = (inl "KeyError", richmond).
Proof.
  split; [lia|].
  apply (X10_no_day_raises_key_error
           sky_previous_rising sky_next_setting 1 0 richmond).
  lia.
Defined.

(** X11.  [sun_events] sets the clock and the horizon of the observer
    before every query: what it returns and how it leaves the observer
    depend on the observer's position only, not on the clock and horizon
    an earlier use left behind. *)
Theorem X11_sweep_reads_position_only
    (previous_rising next_setting : Observer -> Z)
    (start_date end_date : Z) (obs1 obs2 : Observer) :
  start_date <= end_date ->
  lat obs1 = lat obs2 ->
  lon obs1 = lon obs2 ->
  sun_events previous_rising next_setting start_date end_date obs1
  = sun_events previous_rising next_setting start_date end_date obs2.
Proof.
  intros H E1 E2.
  rewrite !(sun_events_run _ _ _ _ _ H), E1, E2.
  f_equal. apply swept_position; auto. now apply mission_days_nonempty.
Qed.

Lemma X11_witness :
  0 <= 1
  /\ lat richmond = lat (mkObserver (lat richmond) (lon richmond) (noon 7) "-18")
  /\ lon richmond = lon (mkObserver (lat richmond) (lon richmond) (noon 7) "-18")
  /\ sun_events sky_previous_rising sky_next_setting 0 1 richmond
     = sun_events sky_previous_rising sky_next_setting 0 1
         (mkObserver (lat richmond) (lon richmond) (noon 7) "-18").
Proof.
  split; [lia|]. split; [reflexivity|]. split; [reflexivity|].
  apply (X11_sweep_reads_position_only
           sky_previous_rising sky_next_setting 0 1 richmond
           (mkObserver (lat richmond) (lon richmond) (noon 7) "-18"));
    [lia|reflexivity|reflexivity].
Defined.

(** X12.  Every row of the timeline is an answer of the ephemeris for a
    day of the mission and one of the four horizons: a rising carries the
    label of its horizon, a setting the label of the next darker phase.
    No answer is lost: both answers for every day and horizon are rows. *)
Theorem X12_timeline_rows_are_the_answers
    (previous_rising next_setting : Observer -> Z)
    (start_date end_date : Z) (obs obs' : Observer) (times : list Ev.t) :
  sun_events previous_rising next_setting start_date end_date obs
    = (inr times, obs') ->
  (forall b, In b times ->
     exists d ph hz,
       start_date <= d <= end_date
       /\ In (ph, hz) phases
       /\ ((Ev.direction b = "rise"
            /\ Ev.datetime b
               = previous_rising (mkObserver (lat obs) (lon obs) (noon d) hz)
            /\ Ev.phase b = ph)
           \/ (Ev.direction b = "set"
               /\ Ev.datetime b
                  = next_setting (mkObserver (lat obs) (lon obs) (noon d) hz)
               /\ relabeled "set" ph (Ev.phase b))))
  /\ (forall d ph hz,
        start_date <= d <= end_date ->
        In (ph, hz) phases ->
        In (Ev.mk ph "rise"
              (previous_rising (mkObserver (lat obs) (lon obs) (noon d) hz)))
           times
        /\ exists ph',
             relabeled "set" ph ph'
             /\ In (Ev.mk ph' "set"
                      (next_setting (mkObserver (lat obs) (lon obs) (noon d) hz)))
                   times).
Proof.
  intros H. apply sun_events_inr in H. destruct H as [Hd [-> _]].
  assert (D : forall ph hz, In (ph, hz) phases -> relabeled "set" ph (darker ph)).
  { intros ph hz Hp. cbn in Hp.
    destruct Hp as [E|[E|[E|[E|[]]]]]; injection E as <- _; constructor. }
  split.
  - intros b Hb. unfold timeline, raw_events, sort_values in Hb.
    apply in_map_iff in Hb. destruct Hb as [e0 [<- He0]].
    apply sort_by_In in He0. unfold melt_rows in He0.
    apply in_app_or in He0.
    assert (T : forall r,
               In r (sun_table previous_rising next_setting
                       (lat obs) (lon obs) start_date end_date) ->
               exists d ph hz,
                 start_date <= d <= end_date /\ In (ph, hz) phases
                 /\ r = query_at previous_rising next_setting
                          (lat obs) (lon obs) (noon d) (ph, hz)).
    { intros r Hr. unfold sun_table in Hr. apply in_flat_map in Hr.
      destruct Hr as [d [Hd' Hr]]. apply mission_days_In in Hd'.
      unfold day_rows in Hr. apply in_map_iff in Hr.
      destruct Hr as [[ph hz] [<- Hp]]. exists d, ph, hz. auto. }
    destruct He0 as [He0|He0]; apply in_map_iff in He0;
      destruct He0 as [r [<- Hr]];
      destruct (T r Hr) as [d [ph [hz [Hdd [Hp ->]]]]];
      exists d, ph, hz; (split; [exact Hdd|]); (split; [exact Hp|]).
    + left. repeat split.
    + right. repeat split. exact (D ph hz Hp).
  - intros d ph hz Hdd Hp.
    assert (R : In (query_at previous_rising next_setting
                      (lat obs) (lon obs) (noon d) (ph, hz))
                   (sun_table previous_rising next_setting
                      (lat obs) (lon obs) start_date end_date)).
    { unfold sun_table. apply in_flat_map. exists d.
      split; [now apply mission_days_In|].
      unfold day_rows. now apply in_map. }
    split.
    + unfold timeline, raw_events, sort_values. apply in_map_iff.
      exists (Ev.mk ph "rise"
                (previous_rising (mkObserver (lat obs) (lon obs) (noon d) hz))).
      split; [reflexivity|]. apply sort_by_In. unfold melt_rows.
      apply in_or_app. left. apply in_map_iff. eexists. split; [|exact R].
      reflexivity.
    + exists (darker ph). split; [exact (D ph hz Hp)|].
      unfold timeline, raw_events, sort_values. apply in_map_iff.
      exists (Ev.mk ph "set"
                (next_setting (mkObserver (lat obs) (lon obs) (noon d) hz))).
      split; [reflexivity|]. apply sort_by_In. unfold melt_rows.
      apply in_or_app. right. apply in_map_iff. eexists. split; [|exact R].
      reflexivity.
Qed.

Lemma X12_witness :
  sun_events sky_previous_rising sky_next_setting
    (start_date sample) (end_date sample) (observer sample)
    = (inr sample_times, sample_after)
  /\ (forall b, In b sample_times ->
        exists d ph hz,
          start_date sample <= d <= end_date sample
          /\ In (ph, hz) phases
          /\ ((Ev.direction b = "rise"
               /\ Ev.datetime b
                  = sky_previous_rising
                      (mkObserver (lat (observer sample)) (lon (observer sample))
                         (noon d) hz)
               /\ Ev.phase b = ph)
              \/ (Ev.direction b = "set"
                  /\ Ev.datetime b
                     = sky_next_setting
                         (mkObserver (lat (observer sample))
                            (lon (observer sample)) (noon d) hz)
                  /\ relabeled "set" ph (Ev.phase b))))
  /\ (forall d ph hz,
        start_date sample <= d <= end_date sample ->
        In (ph, hz) phases ->
        In (Ev.mk ph "rise"
              (sky_previous_rising
                 (mkObserver (lat (observer sample)) (lon (observer sample))
                    (noon d) hz)))
           sample_times
        /\ exists ph',
             relabeled "set" ph ph'
             /\ In (Ev.mk ph' "set"
                      (sky_next_setting
                         (mkObserver (lat (observer sample))
                            (lon (observer sample)) (noon d) hz)))
                   sample_times).
Proof.
  assert (H1 : sun_events sky_previous_rising sky_next_setting
                 (start_date sample) (end_date sample) (observer sample)
               = (inr sample_times, sample_after))
    by (vm_compute; reflexivity).
  split; [exact H1|].
  exact (X12_timeline_rows_are_the_answers
           sky_previous_rising sky_next_setting
           (start_date sample) (end_date sample) (observer sample)
           sample_after sample_times H1).
Defined.

(** X13.  In the timeline Night begins only at a setting and Daytime only
    at a rising, and every row is a rising or a setting. *)
Theorem X13_night_sets_day_rises
    (previous_rising next_setting : Observer -> Z)
    (start_date end_date : Z) (obs obs' : Observer)
    (times : list Ev.t) (b : Ev.t) :
  sun_events previous_rising next_setting start_date end_date obs
    = (inr times, obs') ->
  In b times ->
  (Ev.direction b = "rise" \/ Ev.direction b = "set")
  /\ (Ev.phase b = s.NIGHT -> Ev.direction b = "set")
  /\ (Ev.phase b = s.SHINE -> Ev.direction b = "rise").
Proof.
  intros H Hb. apply sun_events_inr in H. destruct H as [_ [-> _]].
  unfold timeline in Hb. apply in_map_iff in Hb. destruct Hb as [e [<- He]].
  apply raw_events_shape in He. destruct He as [Hd Hp].
  destruct e as [p d t]. cbn [Ev.direction Ev.phase] in *. cbn in Hp.
  destruct Hd as [-> | ->]; destruct Hp as [<-|[<-|[<-|[<-|[]]]]];
    vm_compute; repeat split; auto; discriminate.
Qed.

Lemma X13_witness :
  sun_events sky_previous_rising sky_next_setting
    (start_date sample) (end_date sample) (observer sample)
    = (inr sample_times, sample_after)
  /\ In (Ev.mk s.SHINE "rise" (at_ 0 11 59 30)) sample_times
  /\ (Ev.direction (Ev.mk s.SHINE "rise" (at_ 0 11 59 30)) = "rise"
      \/ Ev.direction (Ev.mk s.SHINE "rise" (at_ 0 11 59 30)) = "set")
  /\ (Ev.phase (Ev.mk s.SHINE "rise" (at_ 0 11 59 30)) = s.NIGHT ->
      Ev.direction (Ev.mk s.SHINE "rise" (at_ 0 11 59 30)) = "set")
  /\ (Ev.phase (Ev.mk s.SHINE "rise" (at_ 0 11 59 30)) = s.SHINE ->
      Ev.direction (Ev.mk s.SHINE "rise" (at_ 0 11 59 30)) = "rise").
Proof.
  assert (H1 : sun_events sky_previous_rising sky_next_setting
                 (start_date sample) (end_date sample) (observer sample)
               = (inr sample_times, sample_after))
    by (vm_compute; reflexivity).
  assert (H2 : In (Ev.mk s.SHINE "rise" (at_ 0 11 59 30)) sample_times)
    by (do 3 right; left; reflexivity).
  split; [exact H1|]. split; [exact H2|].
  exact (X13_night_sets_day_rises
           sky_previous_rising sky_next_setting
           (start_date sample) (end_date sample) (observer sample)
           sample_after sample_times
           (Ev.mk s.SHINE "rise" (at_ 0 11 59 30)) H1 H2).
Defined.

(** * Further properties of the calls *)

(** X14.  [track_data] can be called again: after a call that returned a
    frame, the same call on the object as that call left it returns the
    same frame and leaves the object unchanged, and so does any call with
    another [time]. *)
Theorem X14_track_data_repeatable
    (previous_rising next_setting : Observer -> Z)
    (utc_offset : string -> Z -> Z)
    (self : GPX) (time : option bool) (obs obs1 : Observer)
    (df : list Row.t) :
  track_data previous_rising next_setting utc_offset self time obs
    = (inr df, obs1) ->
  track_data previous_rising next_setting utc_offset self time obs1
    = (inr df, obs1)
  /\ forall time', exists df',
       track_data previous_rising next_setting utc_offset self time' obs1
       = (inr df', obs1).
Proof.
  intros H.
  pose proof (track_data_inr _ _ _ _ _ _ _ _ H) as [Hd [E1 E2]].
  assert (La : lat obs1 = lat obs) by (rewrite E2; apply swept_lat).
  assert (Lo : lon obs1 = lon obs) by (rewrite E2; apply swept_lon).
  split.
  - rewrite (track_data_again _ _ _ _ _ time _ _ _ _ H La Lo). now rewrite E1.
  - intros time'. eexists.
    exact (track_data_again _ _ _ _ _ time' _ _ _ _ H La Lo).
Qed.

Lemma X14_witness :
  track_data sky_previous_rising sky_next_setting est sample None
    (observer sample) = (inr sample_frame, sample_after)
  /\ track_data sky_previous_rising sky_next_setting est sample None
       sample_after = (inr sample_frame, sample_after)
  /\ forall time', exists df',
       track_data sky_previous_rising sky_next_setting est sample time'
         sample_after = (inr df', sample_after).
Proof.
  assert (H1 : track_data sky_previous_rising sky_next_setting est sample None
                 (observer sample) = (inr sample_frame, sample_after))
    by (vm_compute; reflexivity).
  split; [exact H1|].
  exact (X14_track_data_repeatable sky_previous_rising sky_next_setting est
           sample None (observer sample) sample_after sample_frame H1).
Defined.

(** X15.  [track_data] returns a frame only for an object with tracks,
    with a timestamp on some point of some track, and with dates in
    order. *)
Theorem X15_track_data_returns_only_if
    (previous_rising next_setting : Observer -> Z)
    (utc_offset : string -> Z -> Z)
    (self : GPX) (time : option bool) (obs obs' : Observer)
    (df : list Row.t) :
  track_data previous_rising next_setting utc_offset self time obs
    = (inr df, obs') ->
  tracks (_gpx_data self) <> []
  /\ (exists p, In p (parsed self) /\ Pt.utc p <> None)
  /\ start_date self <= end_date self.
Proof.
  intros H. rewrite track_data_eval in H.
  destruct (tracks (_gpx_data self)); [discriminate|].
  destruct (parsed self) as [|p0 ps] eqn:Ep; [discriminate|].
  destruct (forallb _ (p0 :: ps)) eqn:F; [discriminate|].
  destruct (Z.ltb_spec (end_date self) (start_date self)); [discriminate|].
  split; [discriminate|]. split; [|lia].
  apply forallb_false_witness in F. destruct F as [p [Hp Fp]].
  exists p. split; [exact Hp|]. intros E. rewrite E in Fp. discriminate.
Qed.

Lemma X15_witness :
  track_data sky_previous_rising sky_next_setting est sample None
    (observer sample) = (inr sample_frame, sample_after)
  /\ tracks (_gpx_data sample) <> []
  /\ (exists p, In p (parsed sample) /\ Pt.utc p <> None)
  /\ start_date sample <= end_date sample.
Proof.
  assert (H1 : track_data sky_previous_rising sky_next_setting est sample None
                 (observer sample) = (inr sample_frame, sample_after))
    by (vm_compute; reflexivity).
  split; [exact H1|].
  exact (X15_track_data_returns_only_if
           sky_previous_rising sky_next_setting est
           sample None (observer sample) sample_after sample_frame H1).
Defined.

(** X16.  Four inputs on which [track_data] raises before any query of
    the ephemeris, leaving the observer as it was: a file without tracks
    ([ValueError] from [pd.concat]), tracks without points
    ([AttributeError], no column [utc]), points without any timestamp
    ([TypeError] from [tz_convert]), and, with a timestamp present, an end
    date before the start date ([KeyError] from [sun_events]). *)
Theorem X16_edge_inputs_raise
    (previous_rising next_setting : Observer -> Z)
    (utc_offset : string -> Z -> Z)
    (self : GPX) (time : option bool) (obs : Observer) :
  (tracks (_gpx_data self) = [] ->
   track_data previous_rising next_setting utc_offset self time obs
   = (inl "ValueError", obs))
  /\ (tracks (_gpx_data self) <> [] -> parsed self = [] ->
      track_data previous_rising next_setting utc_offset self time obs
      = (inl "AttributeError", obs))
  /\ (parsed self <> [] ->
      (forall p, In p (parsed self) -> Pt.utc p = None) ->
      track_data previous_rising next_setting utc_offset self time obs
      = (inl "TypeError", obs))
  /\ ((exists p, In p (parsed self) /\ Pt.utc p <> None) ->
      end_date self < start_date self ->
      track_data previous_rising next_setting utc_offset self time obs
      = (inl "KeyError", obs)).
Proof.
  rewrite track_data_eval.
  split; [|split; [|split]].
  - intros ->. reflexivity.
  - intros Ht ->. destruct (tracks (_gpx_data self)); [congruence|reflexivity].
  - intros Hp Hall.
    assert (F : forallb (fun p => isnull (Pt.utc p)) (parsed self) = true).
    { apply forallb_forall. intros p Hin. now rewrite (Hall p Hin). }
    destruct (tracks (_gpx_data self)) eqn:Et.
    + exfalso. apply Hp. unfold parsed. now rewrite Et.
    + destruct (parsed self); [congruence|]. now rewrite F.
  - intros [p [Hin Hu]] L.
    assert (F : forallb (fun p => isnull (Pt.utc p)) (parsed self) = false).
    { apply not_true_is_false. intros F. rewrite forallb_forall in F.
      specialize (F p Hin). destruct (Pt.utc p); [discriminate|congruence]. }
    destruct (tracks (_gpx_data self)) eqn:Et.
    + exfalso. unfold parsed in Hin. rewrite Et in Hin. destruct Hin.
    + destruct (parsed self); [destruct Hin|]. rewrite F.
      destruct (Z.ltb_spec (end_date self) (start_date self)); [reflexivity|lia].
Qed.

(** X17.  For a file whose time bounds are UTC stamps, the constructor
    returns an object exactly when the file has a track point and the
    parser reports both time bounds; the object then holds the parsed
    file and the observer of [_observer_init], dated at the start of the
    bounds. *)
Theorem X17_constructor_returns_iff
    (get_time_bounds : GPXData -> TimeBounds) (g : GPXData) :
  ((exists self, __init__ get_time_bounds g = inr self)
   <-> (walk g <> []
        /\ start_time (get_time_bounds g) <> None
        /\ end_time (get_time_bounds g) <> None))
  /\ (forall self,
        __init__ get_time_bounds g = inr self ->
        _gpx_data self = g
        /\ _observer_init get_time_bounds g = inr (observer self)
        /\ Some (date (observer self)) = start_time (get_time_bounds g)).
Proof.
  unfold __init__, _observer_init, np_median_axis0.
  destruct (map (fun p => (latitude p, longitude p)) (walk g)) as [|pt pts] eqn:E.
  - apply map_eq_nil in E. split.
    + split; [intros [self H]; discriminate|intros [H _]; contradiction].
    + intros self H. discriminate.
  - assert (W : walk g <> []) by (intros W; rewrite W in E; discriminate).
    destruct (start_time (get_time_bounds g)) as [t0|].
    + destruct (end_time (get_time_bounds g)) as [t1|].
      * split.
        -- split; [intros _; repeat split; auto; discriminate|].
           intros _. eexists. reflexivity.
        -- intros self H. injection H as <-. repeat split.
      * split.
        -- split; [intros [self H]; discriminate|].
           intros [_ [_ H]]. congruence.
        -- intros self H. discriminate.
    + split.
      * split; [intros [self H]; discriminate|].
        intros [_ [H _]]. congruence.
      * intros self H. discriminate.
Qed.

Lemma constructor_fields
    (get_time_bounds : GPXData -> TimeBounds) (g : GPXData) (self : GPX) :
  __init__ get_time_bounds g = inr self ->
  _gpx_data self = g
  /\ lat (observer self) = column_median (map latitude (walk g))
  /\ lon (observer self) = column_median (map longitude (walk g)).
Proof.
  unfold __init__, _observer_init, np_median_axis0.
  destruct (map (fun p => (latitude p, longitude p)) (walk g)) as [|pt pts] eqn:E;
    [discriminate|].
  rewrite <- E, !map_map. cbn [fst snd].
  destruct (start_time (get_time_bounds g)); [|discriminate].
  destruct (end_time (get_time_bounds g)); [|discriminate].
  intros H. injection H as <-. repeat split.
Qed.

(** X18.  From the file to the frame: when [track_data()] on a
    constructed object returns a frame, the frame has one row for every
    track point of the file, and the observer is still at the median
    latitude and the median longitude of those points. *)
Theorem X18_frame_of_constructed_object
    (previous_rising next_setting : Observer -> Z)
    (get_time_bounds : GPXData -> TimeBounds)
    (utc_offset : string -> Z -> Z)
    (g : GPXData) (self : GPX) (df : list Row.t) (obs' : Observer) :
  __init__ get_time_bounds g = inr self ->
  track_data previous_rising next_setting utc_offset self None (observer self)
    = (inr df, obs') ->
  List.length df = List.length (walk g)
  /\ map (fun row => (Pt.latitude (Rec.pt (Row.rec row)),
                      Pt.longitude (Rec.pt (Row.rec row)))) df
     = map (fun p => (latitude p, longitude p)) (walk g)
  /\ lat obs' = column_median (map latitude (walk g))
  /\ lon obs' = column_median (map longitude (walk g)).
Proof.
  intros Hi Htd.
  destruct (constructor_fields _ _ _ Hi) as [Eg [Ela Elo]].
  apply track_data_inr in Htd. destruct Htd as [_ [-> ->]].
  cbn [selected].
  pose proof (labelled_records previous_rising next_setting utc_offset
                self (observer self)) as R.
  pose proof (parse_from_points (tracks (_gpx_data self)) 0%nat) as E.
  rewrite <- parsed_parse_from, Eg in E. fold (walk g) in E.
  split; [|split; [|split]].
  - rewrite <- (length_map (fun row => Rec.pt (Row.rec row))), R.
    apply (f_equal (@List.length _)) in E. now rewrite !length_map in E.
  - apply (f_equal (map fst)) in E. rewrite !map_map in E. cbn [fst] in E.
    rewrite <- E, <- R, map_map. reflexivity.
  - now rewrite swept_lat.
  - now rewrite swept_lon.
Qed.

Lemma X18_witness :
  __init__ sample_bounds sample_data = inr sample
  /\ track_data sky_previous_rising sky_next_setting est sample None
       (observer sample) = (inr sample_frame, sample_after)
  /\ List.length sample_frame = List.length (walk sample_data)
  /\ map (fun row => (Pt.latitude (Rec.pt (Row.rec row)),
                      Pt.longitude (Rec.pt (Row.rec row)))) sample_frame
     = map (fun p => (latitude p, longitude p)) (walk sample_data)
  /\ lat sample_after = column_median (map latitude (walk sample_data))
  /\ lon sample_after = column_median (map longitude (walk sample_data)).
Proof.
  assert (H1 : __init__ sample_bounds sample_data = inr sample)
    by (vm_compute; reflexivity).
  assert (H2 : track_data sky_previous_rising sky_next_setting est sample None
                 (observer sample) = (inr sample_frame, sample_after))
    by (vm_compute; reflexivity).
  split; [exact H1|]. split; [exact H2|].
  exact (X18_frame_of_constructed_object
           sky_previous_rising sky_next_setting sample_bounds est
           sample_data sample sample_frame sample_after H1 H2).
Defined.

(** X19.  The observer lies inside the bounding box of the track points:
    its latitude is between the latitudes of two points of the file, and
    its longitude between the longitudes of two points. *)
Theorem X19_observer_inside_bounding_box
    (get_time_bounds : GPXData -> TimeBounds) (g : GPXData) (obs : Observer) :
  _observer_init get_time_bounds g = inr obs ->
  (exists p q, In p (walk g) /\ In q (walk g)
               /\ (latitude p <= lat obs <= latitude q)%Q)
  /\ (exists p q, In p (walk g) /\ In q (walk g)
                  /\ (longitude p <= lon obs <= longitude q)%Q).
Proof.
  unfold _observer_init, np_median_axis0.
  destruct (map (fun p => (latitude p, longitude p)) (walk g)) as [|pt pts] eqn:E;
    [discriminate|].
  rewrite <- E, !map_map. cbn [fst snd].
  destruct (start_time (get_time_bounds g)); [|discriminate].
  intros H. injection H as <-. cbn [lat lon].
  assert (W : walk g <> []) by (intros W; rewrite W in E; discriminate).
  assert (B : forall f : GPXTrackPoint -> Q,
             exists p q, In p (walk g) /\ In q (walk g)
                         /\ (f p <= column_median (map f (walk g)) <= f q)%Q).
  { intros f.
    destruct (column_median_bounded (map f (walk g))) as [a [b [Ha [Hb Hab]]]].
    - intros M. apply map_eq_nil in M. contradiction.
    - apply in_map_iff in Ha. destruct Ha as [p [<- Hp]].
      apply in_map_iff in Hb. destruct Hb as [q [<- Hq]].
      exists p, q. auto. }
  split; apply B.
Qed.

Lemma X19_witness :
  _observer_init sample_bounds sample_data = inr (observer sample)
  /\ (exists p q, In p (walk sample_data) /\ In q (walk sample_data)
                  /\ (latitude p <= lat (observer sample) <= latitude q)%Q)
  /\ (exists p q, In p (walk sample_data) /\ In q (walk sample_data)
                  /\ (longitude p <= lon (observer sample) <= longitude q)%Q).
Proof.
  assert (H1 : _observer_init sample_bounds sample_data = inr (observer sample))
    by (vm_compute; reflexivity).
  split; [exact H1|].
  exact (X19_observer_inside_bounding_box sample_bounds sample_data
           (observer sample) H1).
Defined.

Lemma filter_length_mono {X} (f g : X -> bool) (l : list X) :
  (forall x, f x = true -> g x = true) ->
  (List.length (filter f l) <= List.length (filter g l))%nat.
Proof.
  intros H. induction l as [|x l IH]; [reflexivity|].
  cbn [filter]. destruct (f x) eqn:F.
  - rewrite (H x F). cbn [List.length]. lia.
  - destruct (g x); cbn [List.length]; lia.
Qed.

Lemma median_in_majority_interval (m lo hi : Q) (col : list Q) :
  is_median m col ->
  (List.length col < 2 * List.length (filter (within lo hi) col))%nat ->
  (lo <= m <= hi)%Q.
Proof.
  intros [Hb Ha] Hmaj. split.
  - destruct (Qlt_le_dec m lo) as [L|L]; [exfalso|exact L].
    assert (M : (List.length (filter (within lo hi) col) <= count_above m col)%nat).
    { apply filter_length_mono. intros x Hx. unfold within in Hx.
      apply andb_prop in Hx. destruct Hx as [Hx _].
      apply Qle_bool_iff in Hx. apply Qltb_lt.
      now apply Qlt_le_trans with lo. }
    lia.
  - destruct (Qlt_le_dec hi m) as [L|L]; [exfalso|exact L].
    assert (M : (List.length (filter (within lo hi) col) <= count_below m col)%nat).
    { apply filter_length_mono. intros x Hx. unfold within in Hx.
      apply andb_prop in Hx. destruct Hx as [_ Hx].
      apply Qle_bool_iff in Hx. apply Qltb_lt.
      now apply Qle_lt_trans with hi. }
    lia.
Qed.

(** X20.  The observer follows the bulk of the points: when more than half
    of the track points have their latitude in an interval, the latitude
    of the observer is in that interval, wherever the other points are;
    the same holds for the longitude. *)
Theorem X20_observer_follows_majority
    (get_time_bounds : GPXData -> TimeBounds) (g : GPXData) (obs : Observer)
    (south north west east : Q) :
  _observer_init get_time_bounds g = inr obs ->
  (List.length (walk g)
   < 2 * List.length
           (filter (fun p => within south north (latitude p)) (walk g)))%nat ->
  (List.length (walk g)
   < 2 * List.length
           (filter (fun p => within west east (longitude p)) (walk g)))%nat ->
  (south <= lat obs <= north)%Q /\ (west <= lon obs <= east)%Q.
Proof.
  unfold _observer_init, np_median_axis0.
  destruct (map (fun p => (latitude p, longitude p)) (walk g)) as [|pt pts] eqn:E;
    [discriminate|].
  rewrite <- E, !map_map. cbn [fst snd].
  destruct (start_time (get_time_bounds g)); [|discriminate].
  intros H. injection H as <-. cbn [lat lon].
  assert (W : walk g <> []) by (intros W; rewrite W in E; discriminate).
  assert (B : forall (f : GPXTrackPoint -> Q) (lo hi : Q),
             (List.length (walk g)
              < 2 * List.length (filter (fun p => within lo hi (f p)) (walk g)))%nat ->
             (lo <= column_median (map f (walk g)) <= hi)%Q).
  { intros f lo hi Hmaj.
    apply (median_in_majority_interval _ lo hi (map f (walk g))).
    - apply column_median_is_median. intros M. apply map_eq_nil in M.
      contradiction.
    - rewrite filter_map_swap, !length_map. exact Hmaj. }
  intros Hlat Hlon. split; apply B; assumption.
Qed.

Lemma X20_witness :
  _observer_init sample_bounds sample_data = inr (observer sample)
  /\ (List.length (walk sample_data)
      < 2 * List.length
              (filter (fun p => within (75 # 2) (376 # 10) (latitude p))
                      (walk sample_data)))%nat
  /\ (List.length (walk sample_data)
      < 2 * List.length
              (filter (fun p => within (-775 # 10) (-773 # 10) (longitude p))
                      (walk sample_data)))%nat
  /\ ((75 # 2) <= lat (observer sample) <= (376 # 10))%Q
  /\ ((-775 # 10) <= lon (observer sample) <= (-773 # 10))%Q.
Proof.
  assert (H1 : _observer_init sample_bounds sample_data = inr (observer sample))
    by (vm_compute; reflexivity).
  assert (H2 : (List.length (walk sample_data)
                < 2 * List.length
                        (filter (fun p => within (75 # 2) (376 # 10) (latitude p))
                                (walk sample_data)))%nat)
    by (vm_compute; lia).
  assert (H3 : (List.length (walk sample_data)
                < 2 * List.length
                        (filter (fun p => within (-775 # 10) (-773 # 10) (longitude p))
                                (walk sample_data)))%nat)
    by (vm_compute; lia).
  split; [exact H1|]. split; [exact H2|]. split; [exact H3|].
  exact (X20_observer_follows_majority sample_bounds sample_data
           (observer sample) (75 # 2) (376 # 10) (-775 # 10) (-773 # 10)
           H1 H2 H3).
Defined.

(** X21.  The argument [time] selects rows of the full frame after the
    summaries are made: the frame of [track_data(time=True)] is the full
    frame without its rows that lack a timestamp, in the same order, that
    of [time=False] the rest; a selected row keeps the start_phase and
    end_phase of its whole track, rows left out included. *)
Theorem X21_selection_after_summaries
    (previous_rising next_setting : Observer -> Z)
    (utc_offset : string -> Z -> Z)
    (self : GPX) (wanted : bool) (obs obs' : Observer) (df : list Row.t) :
  track_data previous_rising next_setting utc_offset self (Some wanted) obs
    = (inr df, obs') ->
  exists all,
    track_data previous_rising next_setting utc_offset self None obs
      = (inr all, obs')
    /\ df = filter (fun r => if wanted then negb (isnull (Row.utc r))
                             else isnull (Row.utc r)) all
    /\ (forall row, In row df ->
          exists first rest,
            filter (fun r => Nat.eqb (Row.id r) (Row.id row)) all = first :: rest
            /\ Row.start_phase row = Row.phase first
            /\ Row.end_phase row = Row.phase (List.last rest first)).
Proof.
  intros H.
  pose proof (track_data_inr _ _ _ _ _ _ _ _ H) as [Hd [-> Eo]].
  exists (labelled previous_rising next_setting utc_offset self obs).
  split.
  - rewrite (track_data_again _ _ _ _ _ None _ _ _ _ H eq_refl eq_refl).
    reflexivity.
  - split; [destruct wanted; reflexivity|].
    intros row Hrow. apply selected_In in Hrow.
    now apply labelled_summary.
Qed.

Lemma X21_witness :
  track_data sky_previous_rising sky_next_setting est sample (Some false)
    (observer sample) = (inr sample_frame_untimed, sample_after)
  /\ exists all,
       track_data sky_previous_rising sky_next_setting est sample None
         (observer sample) = (inr all, sample_after)
       /\ sample_frame_untimed
          = filter (fun r => if false then negb (isnull (Row.utc r))
                             else isnull (Row.utc r)) all
       /\ (forall row, In row sample_frame_untimed ->
             exists first rest,
               filter (fun r => Nat.eqb (Row.id r) (Row.id row)) all
                 = first :: rest
               /\ Row.start_phase row = Row.phase first
               /\ Row.end_phase row = Row.phase (List.last rest first)).
Proof.
  assert (H1 : track_data sky_previous_rising sky_next_setting est sample
                 (Some false) (observer sample)
               = (inr sample_frame_untimed, sample_after))
    by (vm_compute; reflexivity).
  split; [exact H1|].
  exact (X21_selection_after_summaries sky_previous_rising sky_next_setting est
           sample false (observer sample) sample_after sample_frame_untimed H1).
Defined.
